(** * L2-Orderbook-Analysis: the dashboard's client state layer and its views

    A shallow embedding of [src/App.jsx] (connection supervisor, event
    reconciler, parameter store) and of the three views
    [components/OrderbookStatus.jsx], [components/InputPanel.jsx] and
    [components/OutputPanel.jsx], followed by the properties of the
    specification that concern them.

    Layout:
    - [Js]      the fragment of the JavaScript runtime the sources rely on:
                untyped values, property reads, truthiness, binary64
                numbers with [parseFloat], [toFixed], [*] and [/];
    - [React]   the element trees the view functions return;
    - [App]     the state of [App], its socket handlers and
                [handleParamChange];
    - [Views]   the three components;
    - the theorems. *)

From Stdlib Require Import ZArith String Ascii List Bool Lia.
From Stdlib Require Import SpecFloat DecimalString.
From stdpp Require Import base option list strings gmap fin_maps.

Set Warnings "-register-all".
Local Open Scope string_scope.
Local Open Scope list_scope.

(* ===================================================================== *)
(** ** The JavaScript runtime fragment                                     *)
(* ===================================================================== *)

Module Js.

(** *** Numbers

    A JavaScript Number is an IEEE 754 binary64 value: [spec_float] with a
    53 bit mantissa and exponents below 1024, rounded to nearest, ties to
    even. *)

Definition prec : Z := 53.
Definition emax : Z := 1024.

Definition nan : spec_float := S754_nan.

(** The Number value of an integer literal. *)
Definition num_of_Z (z : Z) : spec_float := binary_normalize prec emax z 0 false.

Definition num_of_nat (n : nat) : spec_float := num_of_Z (Z.of_nat n).

(** The Number value of the decimal [(-1)^neg * m * 10^e]. *)
Definition num_of_decimal (neg : bool) (m : N) (e : Z) : spec_float :=
  match m with
  | N0 => S754_zero neg
  | Npos p =>
      match e with
      | Zneg k =>
          let '(q, e', l) :=
            SFdiv_core_binary prec emax (Zpos p) 0 (Zpos (10 ^ k)) 0 in
          binary_round_aux prec emax neg q e' l
      | _ => binary_round prec emax neg (Z.to_pos (Zpos p * 10 ^ e)) 0
      end
  end.

Definition num_mul (x y : spec_float) : spec_float := SFmul prec emax x y.
Definition num_div (x y : spec_float) : spec_float := SFdiv prec emax x y.

(** [x === y] on Numbers: NaN differs from itself, the two zeros agree. *)
Definition num_eqb (x y : spec_float) : bool := SFeqb x y.

(** ToBoolean on a Number: the zeros and NaN are falsy. *)
Definition num_truthy (x : spec_float) : bool :=
  match x with
  | S754_zero _ | S754_nan => false
  | _ => true
  end.

(** *** Scanning numeric literals

    A string holds the UTF-8 bytes of the JavaScript string, one [ascii]
    per byte. White space is every StrWhiteSpaceChar: TAB, LF, VT, FF,
    CR, SP in one byte, U+00A0 in two, and U+1680, U+2000..U+200A,
    U+2028, U+2029, U+202F, U+205F, U+3000 and U+FEFF in three. *)

Definition is_digit (c : ascii) : bool :=
  (48 <=? nat_of_ascii c)%nat && (nat_of_ascii c <=? 57)%nat.

Definition digit_val (c : ascii) : N := (N_of_ascii c - 48)%N.

Definition is_space (c : ascii) : bool :=
  let n := nat_of_ascii c in
  ((9 <=? n)%nat && (n <=? 13)%nat) || (n =? 32)%nat.

Definition is_space2 (c d : ascii) : bool :=
  (nat_of_ascii c =? 194)%nat && (nat_of_ascii d =? 160)%nat.

Definition is_space3 (c d e : ascii) : bool :=
  let x := nat_of_ascii c in
  let y := nat_of_ascii d in
  let z := nat_of_ascii e in
  ((x =? 225) && (y =? 154) && (z =? 128))%nat
  || ((x =? 226) && (y =? 128)
      && (((128 <=? z) && (z <=? 138)) || (z =? 168) || (z =? 169) || (z =? 175)))%nat
  || ((x =? 226) && (y =? 129) && (z =? 159))%nat
  || ((x =? 227) && (y =? 128) && (z =? 128))%nat
  || ((x =? 239) && (y =? 187) && (z =? 191))%nat.

Fixpoint trim_start (s : string) : string :=
  match s with
  | String c r =>
      if is_space c then trim_start r
      else
        match r with
        | String d r2 =>
            if is_space2 c d then trim_start r2
            else
              match r2 with
              | String e r3 => if is_space3 c d e then trim_start r3 else s
              | EmptyString => s
              end
        | EmptyString => s
        end
  | EmptyString => s
  end.

Fixpoint all_space (s : string) : bool :=
  match s with
  | String c r =>
      if is_space c then all_space r
      else
        match r with
        | String d r2 =>
            if is_space2 c d then all_space r2
            else
              match r2 with
              | String e r3 => is_space3 c d e && all_space r3
              | EmptyString => false
              end
        | EmptyString => false
        end
  | EmptyString => true
  end.

(** The leading run of decimal digits of [s], read as a continuation of
    [acc]: its value, its length, and what follows it. *)
Fixpoint take_digits (s : string) (acc : N) (n : nat) : N * nat * string :=
  match s with
  | String c r =>
      if is_digit c then take_digits r (10 * acc + digit_val c)%N (S n)
      else (acc, n, s)
  | EmptyString => (acc, n, s)
  end.

(** An optional ExponentPart: [e] or [E], an optional sign, digits. When
    the digits are missing nothing is consumed. *)
Definition scan_exponent (s : string) : Z * string :=
  match s with
  | String c r =>
      if Ascii.eqb c "e" || Ascii.eqb c "E" then
        let '(neg, r') :=
          match r with
          | String "+" r' => (false, r')
          | String "-" r' => (true, r')
          | _ => (false, r)
          end in
        let '(v, n, rest) := take_digits r' 0%N 0%nat in
        match n with
        | O => (0%Z, s)
        | S _ => ((if neg : bool then - Z.of_N v else Z.of_N v)%Z, rest)
        end
      else (0%Z, s)
  | EmptyString => (0%Z, s)
  end.

(** The longest prefix that is a StrUnsignedDecimalLiteral other than
    [Infinity]: mantissa, decimal exponent, rest. *)
Definition scan_unsigned (s : string) : option (N * Z * string) :=
  let '(i, ni, r1) := take_digits s 0%N 0%nat in
  match r1 with
  | String "." r1' =>
      let '(m, nf, r2) := take_digits r1' i 0%nat in
      match ni, nf with
      | O, O => None
      | _, _ =>
          let '(x, rest) := scan_exponent r2 in
          Some (m, (x - Z.of_nat nf)%Z, rest)
      end
  | _ =>
      match ni with
      | O => None
      | S _ => let '(x, rest) := scan_exponent r1 in Some (i, x, rest)
      end
  end.

Fixpoint strip_prefix (p s : string) : option string :=
  match p, s with
  | EmptyString, _ => Some s
  | String a p', String b s' => if Ascii.eqb a b then strip_prefix p' s' else None
  | String _ _, EmptyString => None
  end.

(** The longest prefix that is a StrDecimalLiteral: its value and the rest. *)
Definition scan_signed (s : string) : option (spec_float * string) :=
  let '(neg, r) :=
    match s with
    | String "+" r => (false, r)
    | String "-" r => (true, r)
    | _ => (false, s)
    end in
  match strip_prefix "Infinity" r with
  | Some rest => Some (S754_infinity neg, rest)
  | None =>
      match scan_unsigned r with
      | Some (m, e, rest) => Some (num_of_decimal neg m e, rest)
      | None => None
      end
  end.

(** [parseFloat(s)] for a string [s]. *)
Definition parseFloat (s : string) : spec_float :=
  match scan_signed (trim_start s) with
  | Some (x, _) => x
  | None => nan
  end.

(** *** Printing numbers *)

Definition digits_of_N (n : N) : string := NilZero.string_of_uint (N.to_uint n).

Fixpoint zeros (n : nat) : string :=
  match n with
  | O => ""
  | S n' => String "0" (zeros n')
  end.

Fixpoint take_str (n : nat) (s : string) : string :=
  match n, s with
  | S n', String c r => String c (take_str n' r)
  | _, _ => ""
  end.

Fixpoint drop_str (n : nat) (s : string) : string :=
  match n, s with
  | S n', String _ r => drop_str n' r
  | _, _ => s
  end.

(** The exact value [m * 2^e] of a finite number as a fraction. *)
Definition fraction_of (m : positive) (e : Z) : Z * Z :=
  match e with
  | Zneg k => (Zpos m, Zpos (2 ^ k))
  | _ => (Zpos m * 2 ^ e, 1)%Z
  end.

(** For [0 < p/q < 1], the least [j >= 1] with [1 <= p/q * 10^j]. *)
Fixpoint first_digit_pos (fuel : nat) (p q j : Z) : Z :=
  match fuel with
  | O => j
  | S fuel' =>
      if (q <=? p * 10)%Z then j
      else first_digit_pos fuel' (p * 10)%Z q (j + 1)%Z
  end.

(** The [n] with [10^(n-1) <= p/q < 10^n], for [0 < p/q]. *)
Definition decimal_exponent (p q : Z) : Z :=
  if (q <=? p)%Z then Z.of_nat (String.length (digits_of_N (Z.to_N (p / q))))
  else (1 - first_digit_pos (Z.to_nat (Z.log2 q + 1)) p q 1)%Z.

(** [p/q / 10^d] as a fraction. *)
Definition scale_down (p q d : Z) : Z * Z :=
  match d with
  | Zneg k => (p * Zpos (10 ^ k), q)%Z
  | _ => (p, q * 10 ^ d)%Z
  end.

(** The two [k]-digit decimals around [p/q], the closer one first (the
    even one on a tie), each as (digits [s], exponent [n]) standing for
    [s * 10^(n-k)]. *)
Definition candidates (p q n k : Z) : list (Z * Z) :=
  let '(p', q') := scale_down p q (n - k) in
  let s := (p' / q')%Z in
  let r := (p' mod q')%Z in
  let lo := (s, n) in
  let hi := if (s + 1 <? 10 ^ k)%Z then ((s + 1)%Z, n) else ((10 ^ (k - 1))%Z, (n + 1)%Z) in
  match (2 * r ?= q')%Z with
  | Lt => [lo; hi]
  | Gt => [hi; lo]
  | Eq => if Z.even s then [lo; hi] else [hi; lo]
  end.

Definition same_float (x y : spec_float) : bool :=
  match x, y with
  | S754_finite s1 m1 e1, S754_finite s2 m2 e2 =>
      Bool.eqb s1 s2 && Pos.eqb m1 m2 && Z.eqb e1 e2
  | _, _ => false
  end.

(** The shortest digit string that reads back as [m * 2^e]: the least
    [k] for which a [k]-digit decimal rounds to it (17 digits always do). *)
Fixpoint shortest_digits (fuel : nat) (m : positive) (e : Z) (n k : Z) : Z * Z * Z :=
  let '(p, q) := fraction_of m e in
  let cs := candidates p q n k in
  let ok := filter (fun c => Is_true
              (same_float (num_of_decimal false (Z.to_N (fst c)) (snd c - k))
                          (S754_finite false m e))) cs in
  match ok, fuel with
  | (s, n') :: _, _ => (s, n', k)
  | [], S fuel' => shortest_digits fuel' m e n (k + 1)%Z
  | [], O => match cs with (s, n') :: _ => (s, n', k) | [] => (0, n, k)%Z end
  end.

(** Number::toString for a positive finite number given by digits [s]
    ([k] of them) and exponent [n]. *)
Definition layout_digits (s n k : Z) : string :=
  let ds := digits_of_N (Z.to_N s) in
  if ((k <=? n) && (n <=? 21))%Z then ds +:+ zeros (Z.to_nat (n - k))
  else if ((0 <? n) && (n <=? 21))%Z then
    take_str (Z.to_nat n) ds +:+ "." +:+ drop_str (Z.to_nat n) ds
  else if ((-6 <? n) && (n <=? 0))%Z then
    "0." +:+ zeros (Z.to_nat (- n)) +:+ ds
  else
    let x := (n - 1)%Z in
    let ex := (if (x <? 0)%Z then "-" else "+") +:+ digits_of_N (Z.to_N (Z.abs x)) in
    if (k =? 1)%Z then ds +:+ "e" +:+ ex
    else take_str 1 ds +:+ "." +:+ drop_str 1 ds +:+ "e" +:+ ex.

(** Number::toString(x), radix 10. *)
Definition number_toString (x : spec_float) : string :=
  match x with
  | S754_nan => "NaN"
  | S754_zero _ => "0"
  | S754_infinity s => if s then "-Infinity" else "Infinity"
  | S754_finite sg m e =>
      let '(p, q) := fraction_of m e in
      let '(s, n, k) := shortest_digits 16 m e (decimal_exponent p q) 1 in
      (if sg then "-" else "") +:+ layout_digits s n k
  end.

(** The decimal string of the integer [n] with [f] digits after the point. *)
Definition fixed_digits (n : N) (f : nat) : string :=
  let m := digits_of_N n in
  match f with
  | O => m
  | S _ =>
      let k := String.length m in
      let m' := if (k <=? f)%nat then zeros (f + 1 - k) +:+ m else m in
      let k' := String.length m' in
      take_str (k' - f) m' +:+ "." +:+ drop_str (k' - f) m'
  end.

(** [x.toFixed(f)] for a Number [x] and [0 <= f <= 100]: the integer
    nearest to [x * 10^f] (the larger one on a tie), laid out with [f]
    decimals; from [10^21] on, Number::toString. *)
Definition toFixed (x : spec_float) (f : nat) : string :=
  match x with
  | S754_finite sg m e =>
      let '(p, q) := fraction_of m e in
      if (10 ^ 21 * q <=? p)%Z then number_toString x
      else
        let num := (p * 10 ^ Z.of_nat f)%Z in
        let n := ((2 * num + q) / (2 * q))%Z in
        (if sg then "-" else "") +:+ fixed_digits (Z.to_N n) f
  | S754_zero _ => fixed_digits 0 f
  | _ => number_toString x
  end.

(** *** Values

    Payloads are whatever the socket delivers: untyped values. Objects map
    their own keys to values; arrays are sequences. *)

Inductive JsVal : Type :=
| VUndefined
| VNull
| VBool (b : bool)
| VNum (x : spec_float)
| VStr (s : string)
| VArr (items : list JsVal)
| VObj (fields : gmap string JsVal).

Definition typeof (v : JsVal) : string :=
  match v with
  | VUndefined => "undefined"
  | VNull | VArr _ | VObj _ => "object"
  | VBool _ => "boolean"
  | VNum _ => "number"
  | VStr _ => "string"
  end.

(** ToBoolean: what [if (v)], [!v] and [v && ...] look at. *)
Definition truthy (v : JsVal) : bool :=
  match v with
  | VUndefined | VNull => false
  | VBool b => b
  | VNum x => num_truthy x
  | VStr s => negb (String.eqb s "")
  | VArr _ | VObj _ => true
  end.

Definition key_of_index (i : nat) : string := NilZero.string_of_uint (Nat.to_uint i).

(** The array index a key denotes, when it is the canonical spelling of one. *)
Definition index_of_key (k : string) : option nat :=
  match NilZero.uint_of_string k with
  | Some u =>
      let i := Nat.of_uint u in
      if String.eqb (key_of_index i) k then Some i else None
  | None => None
  end.

(** The UTF-16 code units of a string, which is what [length] counts and
    what an index selects: a code point above U+FFFF is two units. *)
Fixpoint utf16_units (s : string) : list N :=
  match s with
  | EmptyString => []
  | String c r =>
      let b := N_of_ascii c in
      if (b <? 128)%N then b :: utf16_units r
      else
        match r with
        | EmptyString => []
        | String c2 r2 =>
            let b2 := (N_of_ascii c2 mod 64)%N in
            if (b <? 224)%N then ((b mod 32) * 64 + b2)%N :: utf16_units r2
            else
              match r2 with
              | EmptyString => []
              | String c3 r3 =>
                  let b3 := (N_of_ascii c3 mod 64)%N in
                  if (b <? 240)%N
                  then ((b mod 16) * 4096 + b2 * 64 + b3)%N :: utf16_units r3
                  else
                    match r3 with
                    | EmptyString => []
                    | String c4 r4 =>
                        let cp := ((b mod 8) * 262144 + b2 * 4096 + b3 * 64
                                   + N_of_ascii c4 mod 64 - 65536)%N in
                        (55296 + cp / 1024)%N :: (56320 + cp mod 1024)%N
                          :: utf16_units r4
                    end
              end
        end
  end.

(** The one-unit string holding a code unit. *)
Definition unit_string (u : N) : string :=
  if (u <? 128)%N then String (ascii_of_N u) ""
  else if (u <? 2048)%N then
    String (ascii_of_N (192 + u / 64)) (String (ascii_of_N (128 + u mod 64)) "")
  else
    String (ascii_of_N (224 + u / 4096))
      (String (ascii_of_N (128 + (u / 64) mod 64))
         (String (ascii_of_N (128 + u mod 64)) "")).

(** The property read [v.k] for a data key [k] of a payload; [None] when
    it throws a TypeError ([v] is [null] or [undefined]). The keys are
    the field names the sources read ([connected], [message], [asks],
    [bids], [symbol], [error], the analytics fields, the six parameter
    names) and [length]: none of them is a member a payload inherits
    from a prototype, so the own property decides. Inherited members
    ([constructor], [toString], ...) are not data keys and are not
    described by this function. *)
Definition getProp (v : JsVal) (k : string) : option JsVal :=
  match v with
  | VUndefined | VNull => None
  | VBool _ | VNum _ => Some VUndefined
  | VStr s =>
      if String.eqb k "length" then Some (VNum (num_of_nat (length (utf16_units s))))
      else Some (match index_of_key k ≫= (fun i => utf16_units s !! i) with
                 | Some u => VStr (unit_string u)
                 | None => VUndefined
                 end)
  | VArr l =>
      if String.eqb k "length" then Some (VNum (num_of_nat (length l)))
      else Some (default VUndefined (index_of_key k ≫= (fun i => l !! i)))
  | VObj m => Some (default VUndefined (m !! k))
  end.

(** The own enumerable properties [{...v}] copies. *)
Definition spread (v : JsVal) : gmap string JsVal :=
  match v with
  | VObj m => m
  | VArr l => list_to_map (imap (fun i x => (key_of_index i, x)) l)
  | VStr s =>
      list_to_map (imap (fun i u => (key_of_index i, VStr (unit_string u)))
                        (utf16_units s))
  | _ => ∅
  end.

(** [xs.includes(x)] on strings. *)
Definition includes (xs : list string) (x : string) : bool :=
  existsb (String.eqb x) xs.

(** ToString; [None] when it throws: a payload object whose own
    [toString] key shadows the inherited method holds a non-callable
    value there. *)
Fixpoint toString (v : JsVal) : option string :=
  match v with
  | VUndefined => Some "undefined"
  | VNull => Some "null"
  | VBool b => Some (if b then "true" else "false")
  | VNum x => Some (number_toString x)
  | VStr s => Some s
  | VObj m =>
      match m !! "toString" with
      | Some _ => None
      | None => Some "[object Object]"
      end
  | VArr l =>
      (fix join (l : list JsVal) (first : bool) : option string :=
         match l with
         | [] => Some ""
         | x :: r =>
             sx ← match x with
                  | VUndefined | VNull => Some ""
                  | _ => toString x
                  end;
             sr ← join r false;
             Some ((if first then "" else ",") +:+ sx +:+ sr)
         end) l true
  end.

Definition hex_val (c : ascii) : option N :=
  let n := N_of_ascii c in
  if ((48 <=? n) && (n <=? 57))%N then Some (n - 48)%N
  else if ((97 <=? n) && (n <=? 102))%N then Some (n - 87)%N
  else if ((65 <=? n) && (n <=? 70))%N then Some (n - 55)%N
  else None.

(** The leading run of digits of [s] in base [b]. *)
Fixpoint take_radix (b : N) (s : string) (acc : N) (n : nat) : N * nat * string :=
  match s with
  | String c r =>
      match hex_val c with
      | Some d => if (d <? b)%N then take_radix b r (b * acc + d)%N (S n) else (acc, n, s)
      | None => (acc, n, s)
      end
  | EmptyString => (acc, n, s)
  end.

(** A NonDecimalIntegerLiteral heading [s]: [0x], [0o] or [0b] and digits. *)
Definition scan_radix (s : string) : option (spec_float * string) :=
  match s with
  | String "0" (String c r) =>
      let base :=
        if Ascii.eqb c "x" || Ascii.eqb c "X" then Some 16%N
        else if Ascii.eqb c "o" || Ascii.eqb c "O" then Some 8%N
        else if Ascii.eqb c "b" || Ascii.eqb c "B" then Some 2%N
        else None in
      match base with
      | Some b =>
          let '(v, n, rest) := take_radix b r 0%N 0%nat in
          match n with
          | O => None
          | S _ => Some (num_of_Z (Z.of_N v), rest)
          end
      | None => None
      end
  | _ => None
  end.

(** StringToNumber: the whole string, white space trimmed, must be a
    numeric literal; the empty string is [+0]. *)
Definition stringToNumber (s : string) : spec_float :=
  let t := trim_start s in
  if all_space t then S754_zero false
  else
    match scan_radix t with
    | Some (x, rest) => if all_space rest then x else nan
    | None =>
        match scan_signed t with
        | Some (x, rest) => if all_space rest then x else nan
        | None => nan
        end
    end.

(** ToNumber, the coercion [*] and [/] apply to their operands. *)
Definition toNumber (v : JsVal) : option spec_float :=
  match v with
  | VUndefined => Some nan
  | VNull => Some (S754_zero false)
  | VBool b => Some (if b then num_of_Z 1 else S754_zero false)
  | VNum x => Some x
  | VStr s => Some (stringToNumber s)
  | VArr _ | VObj _ => stringToNumber <$> toString v
  end.

Definition js_mul (a b : JsVal) : option spec_float :=
  x ← toNumber a; y ← toNumber b; Some (num_mul x y).

Definition js_div (a b : JsVal) : option spec_float :=
  x ← toNumber a; y ← toNumber b; Some (num_div x y).

(** The method call [v.toFixed(f)]: only Numbers have the method. *)
Definition call_toFixed (v : JsVal) (f : nat) : option string :=
  match v with
  | VNum x => Some (toFixed x f)
  | _ => None
  end.

(** [a === b] where one side is a Number literal. *)
Definition strict_eq_num (v : JsVal) (x : spec_float) : bool :=
  match v with
  | VNum y => num_eqb y x
  | _ => false
  end.

End Js.

(* ===================================================================== *)
(** ** React elements                                                      *)
(* ===================================================================== *)

Module React.
Import Js.

(** A prop is a value or a callback; the only callback the views pass
    around is the [onChange] handler they are given. *)
Inductive Attr : Type :=
| AVal (v : JsVal)
| AHandler.

(** What a component returns: an element with its props and children, or
    an expression child [{v}]. A component function can return any value
    as a child; whether React accepts it is decided when the tree is
    rendered, see [commit] below. *)
Inductive Node : Type :=
| Elem (tag : string) (attrs : list (string * Attr)) (children : list Node)
| Expr (v : JsVal).

Definition Text (s : string) : Node := Expr (VStr s).

Definition className (c : string) : string * Attr := ("className", AVal (VStr c)).

Definition attr_of (k : string) (attrs : list (string * Attr)) : option Attr :=
  snd <$> List.find (fun kv => String.eqb (fst kv) k) attrs.

(** The form controls ([select] and [input] elements) of a tree, in
    document order, each with its props. *)
Fixpoint controls (n : Node) : list (list (string * Attr)) :=
  match n with
  | Elem tag attrs children =>
      ((if String.eqb tag "select" || String.eqb tag "input" then [attrs] else [])
       ++ (fix go (l : list Node) : list (list (string * Attr)) :=
             match l with
             | [] => []
             | c :: r => (controls c ++ go r)%list
             end) children)%list
  | Expr _ => []
  end.

(** The elements of a tree carrying a given class name, in document order. *)
Fixpoint by_class (c : string) (n : Node) : list Node :=
  match n with
  | Elem tag attrs children =>
      ((match attr_of "className" attrs with
        | Some (AVal (VStr c')) => if String.eqb c' c then [n] else []
        | _ => []
        end)
       ++ (fix go (l : list Node) : list Node :=
             match l with
             | [] => []
             | x :: r => (by_class c x ++ go r)%list
             end) children)%list
  | Expr _ => []
  end.

(** A value React accepts as a child: strings and numbers become text,
    [null], [undefined] and booleans render nothing, an array is rendered
    item by item; a plain object is refused ("Objects are not valid as a
    React child"). *)
Fixpoint valid_child (v : JsVal) : bool :=
  match v with
  | VObj _ => false
  | VArr l =>
      (fix all (l : list JsVal) : bool :=
         match l with
         | [] => true
         | x :: r => valid_child x && all r
         end) l
  | _ => true
  end.

Fixpoint valid_tree (n : Node) : bool :=
  match n with
  | Expr v => valid_child v
  | Elem _ _ children =>
      (fix all (l : list Node) : bool :=
         match l with
         | [] => true
         | c :: r => valid_tree c && all r
         end) children
  end.

(** Rendering the tree a component returned: React throws on the first
    child it refuses, and nothing of the tree is shown. *)
Definition commit (n : Node) : option Node :=
  if valid_tree n then Some n else None.

(** A component's output as it reaches the screen: [None] when the
    component function throws or React refuses its tree. *)
Definition rendered (view : option Node) : option Node := view ≫= commit.

End React.

(* ===================================================================== *)
(** ** The views                                                           *)
(* ===================================================================== *)

Module Views.
Import Js React.

(** The component functions: each returns the tree it builds, or [None]
    when evaluating it throws. [now] stands for
    [new Date().toLocaleTimeString()] at the time of the call. *)

(** *** components/OrderbookStatus.jsx *)

Definition getStatusClass (connected error : JsVal) : string :=
  if truthy error then "status-error"
  else if truthy connected then "status-connected"
  else "status-disconnected".

Definition getStatusText (now : string) (connected orderbook error : JsVal)
  : option string :=
  if truthy error then e ← toString error; Some ("Error: " +:+ e)
  else if truthy connected then
    if truthy orderbook then Some ("Connected - Last update: " +:+ now)
    else Some "Connected - Waiting for data..."
  else Some "Disconnected from server".

Definition getOrderbookInfo (connected orderbook : JsVal) : option Node :=
  if negb (truthy orderbook) || negb (truthy connected) then Some (Expr VNull)
  else
    asks ← getProp orderbook "asks";
    askCount ← (if truthy asks then getProp asks "length"
                else Some (VNum (num_of_Z 0)));
    bids ← getProp orderbook "bids";
    bidCount ← (if truthy bids then getProp bids "length"
                else Some (VNum (num_of_Z 0)));
    symbol ← getProp orderbook "symbol";
    Some (Elem "span" [className "orderbook-info"]
            [Expr symbol; Text " - "; Expr askCount; Text " asks, ";
             Expr bidCount; Text " bids"]).

Definition OrderbookStatus (now : string) (connected orderbook error : JsVal)
  : option Node :=
  text ← getStatusText now connected orderbook error;
  info ← getOrderbookInfo connected orderbook;
  Some (Elem "div" [className ("status-bar " +:+ getStatusClass connected error)]
          [Elem "div" [className "status-indicator"] [];
           Elem "div" [className "status-text"] [Text text];
           info]).

(** *** components/InputPanel.jsx *)

Definition option_elem (v : string) : Node :=
  Elem "option" [("value", AVal (VStr v))] [Text v].

Definition label (s : string) : Node := Elem "label" [] [Text s].

Definition select (name : string) (value : JsVal) (disabled : bool)
  (options : list string) : Node :=
  Elem "select"
    [("name", AVal (VStr name)); ("value", AVal value); ("onChange", AHandler);
     ("disabled", AVal (VBool disabled))]
    (option_elem <$> options).

Definition disconnected_notice : Node :=
  Elem "div" [className "error-message"]
    [Text "Disconnected from server. Parameters cannot be changed."].

Definition InputPanel (params connected : JsVal) : option Node :=
  let disabled := negb (truthy connected) in
  exchange ← getProp params "exchange";
  symbol ← getProp params "symbol";
  order_type ← getProp params "order_type";
  quantity ← getProp params "quantity";
  volatility ← getProp params "volatility";
  fee_tier ← getProp params "fee_tier";
  Some (Elem "div" [className "card left"]
    [Elem "h2" [] [Text "Input Parameters"];
     label "Exchange";
     select "exchange" exchange disabled ["OKX"];
     label "Symbol";
     select "symbol" symbol disabled ["BTC-USDT-SWAP"];
     label "Order Type";
     select "order_type" order_type disabled ["market"; "limit"];
     label "Quantity (USD)";
     Elem "input"
       [("type", AVal (VStr "number")); ("name", AVal (VStr "quantity"));
        ("value", AVal quantity); ("onChange", AHandler);
        ("min", AVal (VStr "1")); ("step", AVal (VStr "1"));
        ("disabled", AVal (VBool disabled))] [];
     label "Volatility";
     Elem "input"
       [("type", AVal (VStr "number")); ("name", AVal (VStr "volatility"));
        ("step", AVal (VStr "0.01")); ("min", AVal (VStr "0.01"));
        ("max", AVal (VStr "2")); ("value", AVal volatility);
        ("onChange", AHandler); ("disabled", AVal (VBool disabled))] [];
     label "Fee Tier";
     select "fee_tier" fee_tier disabled
       ["VIP0"; "VIP1"; "VIP2"; "VIP3"; "VIP4"; "VIP5"];
     if disabled then disconnected_notice else Expr (VBool false)]).

(** *** components/OutputPanel.jsx *)

Definition formatCurrency (val : JsVal) : option string :=
  s ← call_toFixed val 6; Some ("$" +:+ s).

Definition formatBps (bps : JsVal) : option string :=
  a ← call_toFixed bps 6;
  q ← js_div bps (VNum (num_of_Z 10000));
  b ← call_toFixed (VNum q) 7;
  Some (a +:+ " bps (" +:+ b +:+ "%)").

(** [(v * 100).toFixed(f)] *)
Definition percent (v : JsVal) (f : nat) : option string :=
  x ← js_mul v (VNum (num_of_Z 100)); call_toFixed (VNum x) f.

(** [v.a.b] *)
Definition path2 (v : JsVal) (a b : string) : option JsVal :=
  x ← getProp v a; getProp x b.

Definition strong (s : string) : Node := Elem "strong" [] [Text s].

Definition card_right (children : list Node) : Node :=
  Elem "div" [className "card right"]
    (Elem "h2" [] [Text "Analytics Results"] :: children).

Definition waiting_card : Node :=
  card_right [Elem "p" [] [Text "Waiting for data..."]].

Definition OutputPanel (now : string) (analyticsResult : JsVal) : option Node :=
  if negb (truthy analyticsResult) then Some waiting_card
  else
    err ← getProp analyticsResult "error";
    if truthy err then
      Some (card_right
              [Elem "div" [className "error-message"] [Text "Error: "; Expr err]])
    else
      slip_bps ← path2 analyticsResult "slippage" "bps" ≫= formatBps;
      slip_cost ← path2 analyticsResult "slippage" "cost" ≫= formatCurrency;
      fee_amount ← path2 analyticsResult "fees" "amount" ≫= formatCurrency;
      fee_rate ← path2 analyticsResult "fees" "weighted_rate"
                   ≫= (fun v => percent v 2);
      imp_bps ← path2 analyticsResult "market_impact" "total_bps" ≫= formatBps;
      imp_cost ← path2 analyticsResult "market_impact" "cost" ≫= formatCurrency;
      net_bps ← path2 analyticsResult "net_cost" "bps" ≫= formatBps;
      net_amount ← path2 analyticsResult "net_cost" "amount" ≫= formatCurrency;
      maker ← path2 analyticsResult "maker_taker" "maker_ratio"
                ≫= (fun v => percent v 1);
      taker ← path2 analyticsResult "maker_taker" "taker_ratio"
                ≫= (fun v => percent v 1);
      latency ← path2 analyticsResult "latency" "processing_time_ms"
                  ≫= (fun v => call_toFixed v 2);
      Some (card_right
        [Elem "p" [] [strong "Expected Slippage:"; Text " "; Text slip_bps;
                      Text " — "; Text slip_cost];
         Elem "p" [] [strong "Expected Fees:"; Text " "; Text fee_amount;
                      Text " ("; Text fee_rate; Text "%)"];
         Elem "p" [] [strong "Expected Market Impact:"; Text " "; Text imp_bps;
                      Text " — "; Text imp_cost];
         Elem "p" [] [strong "Net Cost:"; Text " "; Text net_bps;
                      Text " — "; Text net_amount];
         Elem "p" [] [strong "Maker/Taker Proportion:"; Text " "; Text maker;
                      Text "% / "; Text taker; Text "%"];
         Elem "p" [] [strong "Internal Latency:"; Text " "; Text latency;
                      Text " ms"];
         Elem "p" [className "timestamp"] [Text "Last updated: "; Text now]]).

End Views.

(* ===================================================================== *)
(** ** src/App.jsx                                                         *)
(* ===================================================================== *)

Module App.
Import Js React Views.

(** The socket.io client handle: the address it was created for and its
    [connected] property, which the transport maintains and [App] only
    reads. *)
Record Socket : Type := mkSocket {
  sock_url : string;
  sock_connected : bool
}.

(** The six [useState] cells of [App]. *)
Record AppState : Type := mkState {
  params : JsVal;
  orderbook : JsVal;
  analyticsResult : JsVal;
  connected : JsVal;
  error : JsVal;
  socket : option Socket
}.

Definition setParams (v : JsVal) (s : AppState) : AppState :=
  mkState v (orderbook s) (analyticsResult s) (connected s) (error s) (socket s).
Definition setOrderbook (v : JsVal) (s : AppState) : AppState :=
  mkState (params s) v (analyticsResult s) (connected s) (error s) (socket s).
Definition setAnalyticsResult (v : JsVal) (s : AppState) : AppState :=
  mkState (params s) (orderbook s) v (connected s) (error s) (socket s).
Definition setConnected (v : JsVal) (s : AppState) : AppState :=
  mkState (params s) (orderbook s) (analyticsResult s) v (error s) (socket s).
Definition setError (v : JsVal) (s : AppState) : AppState :=
  mkState (params s) (orderbook s) (analyticsResult s) (connected s) v (socket s).
Definition setSocket (k : option Socket) (s : AppState) : AppState :=
  mkState (params s) (orderbook s) (analyticsResult s) (connected s) (error s) k.

Definition default_params : JsVal :=
  VObj (list_to_map
    [("exchange", VStr "OKX");
     ("symbol", VStr "BTC-USDT-SWAP");
     ("order_type", VStr "market");
     ("quantity", VNum (num_of_Z 100));
     ("volatility", VNum (num_of_decimal false 3 (-1)));
     ("fee_tier", VStr "VIP0")]).

(** The state of the first render. *)
Definition init : AppState :=
  mkState default_params VNull VNull (VBool false) VNull None.

(** *** Connection supervisor *)

(** [import.meta.env], the deployment configuration. *)
Definition Env : Type := gmap string string.

(** [io(url)]: a fresh handle for [url], not yet connected. *)
Definition io (url : string) : Socket := mkSocket url false.

(** The first effect, run once after mount: create the socket and keep
    it. The argument handed to [io] is the quoted text
    ['import.meta.env.VITE_SOCKET_URL']. *)
Definition initSocket (env : Env) (s : AppState) : AppState :=
  let newSocket := io "import.meta.env.VITE_SOCKET_URL" in
  setSocket (Some newSocket) s.

(** Its cleanup: [newSocket.disconnect()]. *)
Definition cleanup (s : AppState) : AppState :=
  match socket s with
  | Some k => setSocket (Some (mkSocket (sock_url k) false)) s
  | None => s
  end.

(** *** Event reconciler *)

(** The events of the eight [socket.on] registrations, with the argument
    the handler receives. *)
Inductive Event : Type :=
| Connect
| Disconnect
| ConnectError (err : JsVal)
| OrderbookUpdate (data : JsVal)
| AnalyticsUpdate (data : JsVal)
| ConnectionStatus (status : JsVal)
| ErrorEvent (errorData : JsVal)
| ParameterUpdate (updatedParams : JsVal).

(** The body of the handler registered for each event; [None] when it
    throws, which it can only do while reading its argument, before any
    setter has run. *)
Definition on (ev : Event) (s : AppState) : option AppState :=
  match ev with
  | Connect => Some (setError VNull (setConnected (VBool true) s))
  | Disconnect => Some (setConnected (VBool false) s)
  | ConnectError err =>
      Some (setConnected (VBool false)
              (setError (VStr "WebSocket connection failed") s))
  | OrderbookUpdate data => Some (setOrderbook data s)
  | AnalyticsUpdate data => Some (setAnalyticsResult data s)
  | ConnectionStatus status =>
      c ← getProp status "connected"; Some (setConnected c s)
  | ErrorEvent errorData =>
      m ← getProp errorData "message"; Some (setError m s)
  | ParameterUpdate updatedParams => Some (setParams updatedParams s)
  end.

(** Delivering an event: a handler that throws leaves the state as it was. *)
Definition deliver (s : AppState) (ev : Event) : AppState :=
  default s (on ev s).

(** Events are processed one at a time, in arrival order. *)
Definition run (s : AppState) (evs : list Event) : AppState :=
  fold_left deliver evs s.

(** *** Parameter store *)

(** An outbound [socket.emit(event, payload)]. *)
Record Emit : Type := mkEmit {
  emit_event : string;
  emit_payload : JsVal
}.

(** [socket && socket.connected] *)
Definition socket_open (s : AppState) : bool :=
  match socket s with
  | Some k => sock_connected k
  | None => false
  end.

(** [handleParamChange(e)] with [e.target.name = name] and
    [e.target.value = value], both strings as the DOM supplies them: the
    next state and the emits of the call. *)
Definition handleParamChange (name value : string) (s : AppState)
  : AppState * list Emit :=
  let coerced :=
    if includes ["quantity"; "volatility"] name then VNum (parseFloat value)
    else VStr value in
  let s' := setParams (VObj (<[name := coerced]> (spread (params s)))) s in
  (s', if socket_open s
       then [mkEmit "parameter_update" (VObj {[name := VStr value]})]
       else []).

(** *** Everything that can happen to a mounted [App] *)

Inductive Action : Type :=
| Inbound (ev : Event)               (* an event reaches its handler *)
| Edit (name value : string)         (* a form control fires onChange *)
| Link (up : bool).                  (* the transport flips socket.connected *)

Definition step (s : AppState) (a : Action) : AppState * list Emit :=
  match a with
  | Inbound ev => (deliver s ev, [])
  | Edit name value => handleParamChange name value s
  | Link up =>
      (match socket s with
       | Some k => setSocket (Some (mkSocket (sock_url k) up)) s
       | None => s
       end, [])
  end.

(** The state after a sequence of actions and everything emitted on the way. *)
Fixpoint exec (s : AppState) (acts : list Action) : AppState * list Emit :=
  match acts with
  | [] => (s, [])
  | a :: rest =>
      let '(s1, out1) := step s a in
      let '(s2, out2) := exec s1 rest in
      (s2, (out1 ++ out2)%list)
  end.

(** *** What [App] renders *)

Definition statusView (now : string) (s : AppState) : option Node :=
  rendered (OrderbookStatus now (connected s) (orderbook s) (error s)).


Definition outputView (now : string) (s : AppState) : option Node :=
  rendered (OutputPanel now (analyticsResult s)).

(** The whole of [App]: there is no error boundary, so a throw in any
    of the three views, or a child React refuses, fails the render. *)
Definition render (now : string) (s : AppState) : option Node :=
  rendered
    (status ← OrderbookStatus now (connected s) (orderbook s) (error s);
     input ← InputPanel (params s) (connected s);
     output ← OutputPanel now (analyticsResult s);
     Some (Elem "div" [className "container"]
             [Elem "h1" [] [Text "High-Performance Trade Simulator"];
              status;
              Elem "div" [className "grid"] [input; output]])).

(** *** The connection status

    [App] keeps the connection state in two cells, [connected] and
    [error]; the three-valued status is what [getStatusClass] makes of
    them. *)

Inductive Status : Type := Disconnected | Connected | Errored.

Definition connectionStatus (s : AppState) : Status :=
  if truthy (error s) then Errored
  else if truthy (connected s) then Connected
  else Disconnected.

Definition status_class (st : Status) : string :=
  match st with
  | Errored => "status-error"
  | Connected => "status-connected"
  | Disconnected => "status-disconnected"
  end.

End App.

(* ===================================================================== *)
(** ** The specification's reading of the connection events               *)
(* ===================================================================== *)

Module Spec.
Import Js App.

(** The status the specification attaches to each connection-affecting
    event: [connect] connected, [disconnect] disconnected, [connect_error]
    errored, [connection_status] by its [connected] field; the data events
    carry none. *)
Definition implied_status (ev : Event) : option Status :=
  match ev with
  | Connect => Some Connected
  | Disconnect => Some Disconnected
  | ConnectError _ => Some Errored
  | ConnectionStatus status =>
      (fun c => if truthy c then Connected else Disconnected)
        <$> getProp status "connected"
  | _ => None
  end.

(** The status implied by the most recent connection-affecting event. *)
Definition last_implied_status (evs : list Event) : option Status :=
  last (omap implied_status evs).

(** The specification's [connect_error(err)]: the message is taken from
    [err], as the [error] handler takes it from its payload. *)
Definition message_from (err : JsVal) : option JsVal := getProp err "message".

(** The typing the data model gives to [Parameters]. *)
Definition has_type (ty : string) (p : JsVal) (k : string) : bool :=
  match getProp p k with
  | Some v => String.eqb (typeof v) ty
  | None => false
  end.

Definition params_typed (p : JsVal) : bool :=
  forallb (has_type "number" p) ["quantity"; "volatility"]
  && forallb (has_type "string" p) ["exchange"; "symbol"; "order_type"; "fee_tier"].

End Spec.

(* ===================================================================== *)
(** ** Properties                                                          *)
(* ===================================================================== *)

Import Js React Views App.

(** *** Basic facts about the reconciler *)

(** What a handler writes into the [connected] cell, if it writes at all. *)
Definition writes_connected (ev : Event) : option JsVal :=
  match ev with
  | Connect => Some (VBool true)
  | Disconnect | ConnectError _ => Some (VBool false)
  | ConnectionStatus status => getProp status "connected"
  | _ => None
  end.

(** What a handler writes into the [error] cell, if it writes at all. *)
Definition writes_error (ev : Event) : option JsVal :=
  match ev with
  | Connect => Some VNull
  | ConnectError _ => Some (VStr "WebSocket connection failed")
  | ErrorEvent errorData => getProp errorData "message"
  | _ => None
  end.

(** *** Sample payloads and states *)

Definition sample_err : JsVal := VObj {["message" := VStr "xhr poll error"]}.

Definition sample_orderbook : JsVal :=
  VObj (list_to_map
    [("symbol", VStr "BTC-USDT-SWAP");
     ("bids", VArr [VArr [VStr "67000.1"; VStr "1.5"]; VArr [VStr "67000.0"; VStr "2"]]);
     ("asks", VArr [VArr [VStr "67000.2"; VStr "0.7"]])]).

Definition pair_obj (a : string) (x : spec_float) (b : string) (y : spec_float) : JsVal :=
  VObj (list_to_map [(a, VNum x); (b, VNum y)]).

Definition sample_analytics : JsVal :=
  VObj (list_to_map
    [("slippage", pair_obj "bps" (parseFloat "1.25") "cost" (parseFloat "0.0125"));
     ("fees", pair_obj "amount" (parseFloat "0.08") "weighted_rate" (parseFloat "0.0008"));
     ("market_impact", pair_obj "total_bps" (parseFloat "0.5") "cost" (parseFloat "0.005"));
     ("net_cost", pair_obj "bps" (parseFloat "9.75") "amount" (parseFloat "0.0975"));
     ("maker_taker", pair_obj "maker_ratio" (parseFloat "0.3") "taker_ratio" (parseFloat "0.7"));
     ("latency", VObj {["processing_time_ms" := VNum (parseFloat "0.42")]})]).

Definition sample_env : Env := {["VITE_SOCKET_URL" := "http://localhost:5000"]}.

(** A mounted [App] whose socket is open. *)
Definition open_state : AppState :=
  setSocket (Some (mkSocket "import.meta.env.VITE_SOCKET_URL" true)) init.

(** A full parameter set whose [quantity] is the text ["500"]. *)
Definition text_quantity_params : JsVal :=
  VObj (<["quantity" := VStr "500"]> (spread default_params)).

(** A live session: connected, with an orderbook and analytics received. *)
Definition live_state : AppState :=
  run init [Connect; OrderbookUpdate sample_orderbook; AnalyticsUpdate sample_analytics].

Definition sample_now : string := "10:15:00 AM".

(** A session mixing local edits with a typed server correction. *)
Definition sample_session : list Action :=
  [Edit "quantity" "250"; Inbound (ParameterUpdate default_params);
   Inbound Connect; Edit "fee_tier" "VIP3"; Edit "volatility" "abc"].

(** The parameter form of the first render, before the socket connects. *)
Definition default_form : Node :=
  Eval vm_compute in default (Expr VNull) (InputPanel default_params (VBool false)).

(** An action is well-typed when, being a pushed parameter set, it is
    typed as the data model says. *)
Definition pushes_typed (a : Action) : bool :=
  match a with
  | Inbound (ParameterUpdate p) => Spec.params_typed p
  | _ => true
  end.

Definition is_edit (a : Action) : bool :=
  match a with
  | Edit _ _ => true
  | _ => false
  end.

(** *** Vocabulary for the further properties *)

(** The state cells a handler can write. *)
Inductive Cell : Type := CParams | COrderbook | CAnalytics | CConnected | CError.

Definition cell_eqb (a b : Cell) : bool :=
  match a, b with
  | CParams, CParams | COrderbook, COrderbook | CAnalytics, CAnalytics
  | CConnected, CConnected | CError, CError => true
  | _, _ => false
  end.

(** The setters each handler calls. *)
Definition cells_of (ev : Event) : list Cell :=
  match ev with
  | Connect => [CConnected; CError]
  | Disconnect => [CConnected]
  | ConnectError _ => [CError; CConnected]
  | OrderbookUpdate _ => [COrderbook]
  | AnalyticsUpdate _ => [CAnalytics]
  | ConnectionStatus _ => [CConnected]
  | ErrorEvent _ => [CError]
  | ParameterUpdate _ => [CParams]
  end.

(** Two events whose handlers share no setter. *)
Definition independent (e1 e2 : Event) : bool :=
  forallb (fun c => negb (existsb (cell_eqb c) (cells_of e2))) (cells_of e1).

Definition pushed_orderbook (ev : Event) : option JsVal :=
  match ev with OrderbookUpdate data => Some data | _ => None end.

Definition pushed_analytics (ev : Event) : option JsVal :=
  match ev with AnalyticsUpdate data => Some data | _ => None end.

Definition pushed_params (ev : Event) : option JsVal :=
  match ev with ParameterUpdate p => Some p | _ => None end.

(** The inbound events among a sequence of actions, in order. *)
Definition inbound_of (acts : list Action) : list Event :=
  omap (fun a => match a with Inbound ev => Some ev | _ => None end) acts.

Definition is_link (a : Action) : bool :=
  match a with
  | Link _ => true
  | _ => false
  end.

Definition is_nullish (v : JsVal) : bool :=
  match v with
  | VUndefined | VNull => true
  | _ => false
  end.

(** The value the edit operation stores for a field. *)
Definition coerce (name value : string) : JsVal :=
  if includes ["quantity"; "volatility"] name then VNum (parseFloat value)
  else VStr value.

Definition field_names : list string :=
  ["exchange"; "symbol"; "order_type"; "quantity"; "volatility"; "fee_tier"].

(** A Number sits at [ar.a.b]. *)
Definition num_at (ar : JsVal) (a b : string) : bool :=
  match path2 ar a b with
  | Some (VNum _) => true
  | _ => false
  end.

(** A value that [*] can coerce sits at [ar.a.b]. *)
Definition coercible_at (ar : JsVal) (a b : string) : bool :=
  match path2 ar a b with
  | Some v => match toNumber v with Some _ => true | None => false end
  | None => false
  end.

(** What the result branch of [OutputPanel] needs of its argument: the
    nine fields it formats with [toFixed] directly are Numbers, the three
    it multiplies by 100 first can be coerced. *)
Definition renderable (ar : JsVal) : bool :=
  num_at ar "slippage" "bps" && num_at ar "slippage" "cost"
  && num_at ar "fees" "amount" && coercible_at ar "fees" "weighted_rate"
  && num_at ar "market_impact" "total_bps" && num_at ar "market_impact" "cost"
  && num_at ar "net_cost" "bps" && num_at ar "net_cost" "amount"
  && coercible_at ar "maker_taker" "maker_ratio"
  && coercible_at ar "maker_taker" "taker_ratio"
  && num_at ar "latency" "processing_time_ms".

(** The number of orderbook levels the status view counts under a key:
    the [length] of whatever truthy value is there, zero otherwise. *)
Definition level_count (orderbook : JsVal) (side : string) : JsVal :=
  match getProp orderbook side with
  | Some v =>
      if truthy v then default VUndefined (getProp v "length")
      else VNum (num_of_Z 0)
  | None => VNum (num_of_Z 0)
  end.

(** The edits among a sequence of actions, in order. *)
Definition edits_of (acts : list Action) : list (string * string) :=
  omap (fun a => match a with Edit name value => Some (name, value) | _ => None end)
       acts.

(** The emit an edit makes through an open socket. *)
Definition emit_of (e : string * string) : Emit :=
  mkEmit "parameter_update" (VObj {[fst e := VStr (snd e)]}).

(** The four cells the reconciler alone writes agree in two states. *)
Definition same_reconciled (s1 s2 : AppState) : Prop :=
  connected s1 = connected s2 ∧ error s1 = error s2
  ∧ orderbook s1 = orderbook s2 ∧ analyticsResult s1 = analyticsResult s2.

(** The [value] prop of the form control with a given [name]. *)
Definition control_value (t : Node) (name : string) : option Attr :=
  c ← List.find (fun c => match attr_of "name" c with
                          | Some (AVal (VStr n)) => String.eqb n name
                          | _ => false
                          end) (controls t);
  attr_of "value" c.

Definition isSome {A} (o : option A) : bool :=
  match o with
  | Some _ => true
  | None => false
  end.

(** The number of levels on one side of an orderbook object: the length
    of the array under the key, zero when the key is absent. *)
Definition levels (m : gmap string JsVal) (side : string) : nat :=
  match m !! side with
  | Some (VArr l) => length l
  | _ => 0%nat
  end.

(** A side of an orderbook object is absent or an array. *)
Definition side_ok (m : gmap string JsVal) (side : string) : bool :=
  match m !! side with
  | None | Some (VArr _) => true
  | Some _ => false
  end.

(** An orderbook with a symbol, three bids and no [asks] key. *)
Definition bids_only_orderbook : JsVal :=
  VObj (list_to_map
    [("symbol", VStr "BTC-USDT-SWAP");
     ("bids", VArr [VArr [VStr "67000.1"; VStr "1.5"];
                    VArr [VStr "67000.0"; VStr "2"];
                    VArr [VStr "66999.9"; VStr "4"]])]).

(** An analytics result that only reports a failure. *)
Definition failed_analytics : JsVal :=
  VObj {["error" := VStr "Insufficient orderbook depth"]}.

(** The three values the orderbook line shows as children: the symbol
    and the two counts. *)
Definition info_children (orderbook : JsVal) : list JsVal :=
  [default VUndefined (getProp orderbook "symbol");
   level_count orderbook "asks"; level_count orderbook "bids"].

(** The orderbook line for given symbol and counts. *)
Definition info_span (symbol asks bids : JsVal) : Node :=
  Elem "span" [className "orderbook-info"]
    [Expr symbol; Text " - "; Expr asks; Text " asks, "; Expr bids; Text " bids"].

(** The error card of the analytics view. *)
Definition error_card (err : JsVal) : Node :=
  card_right [Elem "div" [className "error-message"] [Text "Error: "; Expr err]].

(** An orderbook whose symbol is an object, and an analytics result
    whose error is one. *)
Definition object_symbol_orderbook : JsVal :=
  VObj (list_to_map
    [("symbol", VObj {["code" := VNum (num_of_Z 1)]});
     ("asks", VArr []); ("bids", VArr [])]).

Definition object_error_analytics : JsVal :=
  VObj {["error" := VObj {["code" := VNum (num_of_Z 1)]}]}.

Fixpoint starts_with (p s : string) : bool :=
  match p, s with
  | EmptyString, _ => true
  | String a p', String b s' => Ascii.eqb a b && starts_with p' s'
  | String _ _, EmptyString => false
  end.

(** A session with one edit while the socket is closed and two while it
    is open. *)
Definition mixed_session : list Action :=
  [Edit "quantity" "250"; Link true; Inbound Connect; Edit "fee_tier" "VIP3";
   Inbound (OrderbookUpdate sample_orderbook); Edit "volatility" "0.5";
   Link false; Inbound Disconnect].

(** *** The runtime fragment at work *)

Example parseFloat_prefixes :
  parseFloat "  .5e1x" = num_of_Z 5
  ∧ parseFloat "5." = num_of_Z 5
  ∧ parseFloat "1e" = num_of_Z 1
  ∧ parseFloat "-Infinityx" = S754_infinity true
  ∧ parseFloat "-0" = S754_zero true
  ∧ parseFloat "0x10" = S754_zero false
  ∧ parseFloat "abc" = nan
  ∧ parseFloat "" = nan.
Proof. vm_compute. repeat split. Qed.

Example parseFloat_rounds :
  parseFloat "0.1" = S754_finite false 7205759403792794 (-56)
  ∧ parseFloat "9007199254740993" = num_of_Z 9007199254740992
  ∧ parseFloat "5e-324" = S754_finite false 1 (-1074)
  ∧ parseFloat "2e-324" = S754_zero false
  ∧ parseFloat "1e309" = S754_infinity false.
Proof. vm_compute. repeat split. Qed.

Example parseFloat_skips_every_space :
  parseFloat " 250" = num_of_Z 250
  ∧ parseFloat "﻿ 　  1.5" = num_of_decimal false 15 (-1)
  ∧ parseFloat "​250" = nan
  ∧ stringToNumber " 12 " = num_of_Z 12
  ∧ all_space "   " = true.
Proof. vm_compute. repeat split. Qed.

Example string_length_counts_code_units :
  getProp (VStr "a—😀z") "length" = Some (VNum (num_of_Z 5))
  ∧ getProp (VStr "a—😀z") "1" = Some (VStr "—")
  ∧ getProp (VStr "a—😀z") "4" = Some (VStr "z")
  ∧ getProp (VStr "a—😀z") "5" = Some VUndefined.
Proof. vm_compute. repeat split. Qed.

Example react_refuses_object_children :
  valid_child (VObj ∅) = false
  ∧ valid_child (VArr [VStr "a"; VArr [VNull; VObj ∅]]) = false
  ∧ valid_child (VArr [VStr "a"; VNum nan; VArr [VNull; VBool true]]) = true
  ∧ rendered (OutputPanel sample_now object_error_analytics) = None
  ∧ render sample_now (setOrderbook object_symbol_orderbook live_state) = None
  ∧ is_Some (render sample_now live_state).
Proof. vm_compute. repeat split; eauto. Qed.

Example toFixed_rounds :
  toFixed (parseFloat "1.005") 2 = "1.00"
  ∧ toFixed (parseFloat "123.456") 2 = "123.46"
  ∧ toFixed (parseFloat "2.5") 0 = "3"
  ∧ toFixed (parseFloat "-0.0001") 2 = "-0.00"
  ∧ toFixed (parseFloat "0.000001") 7 = "0.0000010"
  ∧ toFixed (parseFloat "1e21") 2 = "1e+21"
  ∧ toFixed nan 2 = "NaN".
Proof. vm_compute. repeat split. Qed.

Example number_toString_shortest :
  number_toString (parseFloat "0.1") = "0.1"
  ∧ number_toString (num_mul (parseFloat "0.07") (num_of_Z 100)) = "7.000000000000001"
  ∧ number_toString (num_div (num_of_Z 1) (num_of_Z 3)) = "0.3333333333333333"
  ∧ number_toString (parseFloat "1e23") = "1e+23"
  ∧ number_toString (parseFloat "123456789012345680000") = "123456789012345680000"
  ∧ number_toString (parseFloat "0.0000001") = "1e-7"
  ∧ number_toString (parseFloat "5e-324") = "5e-324".
Proof. vm_compute. repeat split. Qed.

Example coercions :
  js_mul (VStr " 0.5 ") (VNum (num_of_Z 100)) = Some (num_of_Z 50)
  ∧ js_mul (VStr "0x10") (VNum (num_of_Z 100)) = Some (num_of_Z 1600)
  ∧ js_mul (VArr []) (VNum (num_of_Z 100)) = Some (S754_zero false)
  ∧ js_mul (VArr [VStr "5"]) (VNum (num_of_Z 100)) = Some (num_of_Z 500)
  ∧ js_mul (VObj ∅) (VNum (num_of_Z 100)) = Some nan
  ∧ js_mul (VObj {["toString" := VNull]}) (VNum (num_of_Z 100)) = None
  ∧ js_mul VNull (VNum (num_of_Z 100)) = Some (S754_zero false)
  ∧ toString (VArr [VStr "x"; VNull; VNum (parseFloat "1.5"); VArr [VBool true; VUndefined]])
    = Some "x,,1.5,true,".
Proof. vm_compute. repeat split. Qed.

Example property_reads :
  getProp sample_orderbook "symbol" = Some (VStr "BTC-USDT-SWAP")
  ∧ getProp sample_orderbook "spread" = Some VUndefined
  ∧ (getProp sample_orderbook "bids" ≫= fun b => getProp b "length")
    = Some (VNum (num_of_Z 2))
  ∧ getProp (VStr "abc") "length" = Some (VNum (num_of_Z 3))
  ∧ getProp (VStr "abc") "1" = Some (VStr "b")
  ∧ getProp (VNum (num_of_Z 7)) "connected" = Some VUndefined
  ∧ getProp VNull "connected" = None
  ∧ getProp VUndefined "message" = None.
Proof. vm_compute. repeat split. Qed.

(** Case analysis on the next [x ← e; ...] of a hypothesis: the [None]
    case ends the computation. *)
Ltac bind_cases H :=
  repeat match type of H with
         | context [mbind _ ?x] => destruct x; simpl in H; [|discriminate]
         end.

Lemma status_class_getStatusClass s :
  status_class (connectionStatus s) = getStatusClass (connected s) (error s).
Proof.
  unfold connectionStatus, getStatusClass.
  destruct (truthy (error s)); [reflexivity|].
  destruct (truthy (connected s)); reflexivity.
Qed.

Lemma run_snoc s evs ev : run s (evs ++ [ev]) = deliver (run s evs) ev.
Proof. unfold run. rewrite fold_left_app. reflexivity. Qed.

Lemma deliver_connected s ev :
  connected (deliver s ev) = default (connected s) (writes_connected ev).
Proof.
  unfold deliver.
  destruct ev as [| |err|d|d|st|ed|p]; simpl; try reflexivity.
  - destruct (getProp st "connected"); reflexivity.
  - destruct (getProp ed "message"); reflexivity.
Qed.

Lemma deliver_error s ev :
  error (deliver s ev) = default (error s) (writes_error ev).
Proof.
  unfold deliver.
  destruct ev as [| |err|d|d|st|ed|p]; simpl; try reflexivity.
  - destruct (getProp st "connected"); reflexivity.
  - destruct (getProp ed "message"); reflexivity.
Qed.

Lemma last_omap_snoc {A B} (f : A → option B) (l : list A) (x : A) (d : B) :
  default d (last (omap f (l ++ [x])))
  = default (default d (last (omap f l))) (f x).
Proof.
  rewrite omap_app. simpl. destruct (f x) as [y|]; simpl.
  - rewrite last_snoc. reflexivity.
  - rewrite app_nil_r. reflexivity.
Qed.

Lemma run_connected s evs :
  connected (run s evs) = default (connected s) (last (omap writes_connected evs)).
Proof.
  induction evs as [|ev evs IH] using rev_ind; [reflexivity|].
  rewrite run_snoc, deliver_connected, IH, last_omap_snoc. reflexivity.
Qed.

Lemma run_error s evs :
  error (run s evs) = default (error s) (last (omap writes_error evs)).
Proof.
  induction evs as [|ev evs IH] using rev_ind; [reflexivity|].
  rewrite run_snoc, deliver_error, IH, last_omap_snoc. reflexivity.
Qed.

(** A [disconnect] right after a [connect_error] changes nothing at all:
    no reading of the state can tell the two histories apart. *)
Lemma disconnect_after_connect_error s err :
  run s [ConnectError err; Disconnect] = run s [ConnectError err].
Proof. reflexivity. Qed.

(** *** Connection status (C1, C2, C8) *)

(** C1, as stated, fails: after [connect_error] then [disconnect] the most
    recent connection-affecting event implies "disconnected", yet the
    status is still errored, because [disconnect] leaves the error message
    in place and the status view gives it precedence. *)
Lemma status_not_last_event :
  Spec.last_implied_status [ConnectError sample_err; Disconnect] = Some Disconnected
  ∧ connectionStatus (run init [ConnectError sample_err; Disconnect]) = Errored.
Proof. split; reflexivity. Qed.

(** The same for the server's override: [connection_status {connected:
    true}] after a [connect_error] raises the flag but the status stays
    errored; and an [error] data event turns a connected status errored. *)
Example override_keeps_error :
  let evs := [ConnectError sample_err;
              ConnectionStatus (VObj {["connected" := VBool true]})] in
  connected (run init evs) = VBool true ∧ connectionStatus (run init evs) = Errored.
Proof. split; reflexivity. Qed.

Example error_event_changes_status :
  connectionStatus (run init [Connect]) = Connected
  ∧ connectionStatus (run init [Connect; ErrorEvent sample_err]) = Errored.
Proof. split; reflexivity. Qed.

(** C1, amended: after any sequence of inbound events the [connected] flag
    is the value written by the most recent connection-affecting event
    ([connect]: true; [disconnect], [connect_error]: false;
    [connection_status]: its [connected] field), the error message is the
    one written by the most recent of [connect], [connect_error] and
    [error], and the status is errored when that message is truthy and
    otherwise connected or disconnected by the flag. Interleaved data
    events play no part. *)
Theorem status_after_events (s : AppState) (evs : list Event) :
  let c := default (connected s) (last (omap writes_connected evs)) in
  let e := default (error s) (last (omap writes_error evs)) in
  connected (run s evs) = c
  ∧ error (run s evs) = e
  ∧ connectionStatus (run s evs)
    = if truthy e then Errored else if truthy c then Connected else Disconnected.
Proof.
  cbv zeta. unfold connectionStatus.
  rewrite run_connected, run_error. auto.
Qed.

(** C2, as stated, fails: the stored message is not taken from [err]. For
    an error object whose message is "xhr poll error" the stored message
    is the fixed text, the same as for any other payload. *)
Lemma connect_error_message_fixed :
  Spec.message_from sample_err = Some (VStr "xhr poll error")
  ∧ error (deliver init (ConnectError sample_err)) = VStr "WebSocket connection failed"
  ∧ Some (error (deliver init (ConnectError sample_err))) ≠ Spec.message_from sample_err
  ∧ error (deliver init (ConnectError sample_err)) = error (deliver init (ConnectError VUndefined)).
Proof. repeat split; try reflexivity. discriminate. Qed.

(** C2, amended: whatever [err] and whatever the state (whether or not a
    [connect] had succeeded), [connect_error(err)] makes the status
    errored, lowers the [connected] flag, stores the fixed message
    'WebSocket connection failed', and touches nothing else. *)
Theorem connect_error_effect (err : JsVal) (s : AppState) :
  let s' := deliver s (ConnectError err) in
  connectionStatus s' = Errored
  ∧ connected s' = VBool false
  ∧ error s' = VStr "WebSocket connection failed"
  ∧ orderbook s' = orderbook s
  ∧ analyticsResult s' = analyticsResult s
  ∧ params s' = params s
  ∧ socket s' = socket s.
Proof. repeat split. Qed.

(** C8, as stated, fails on its first half: a [disconnect] that arrives
    while an error message is present leaves the status errored, not
    disconnected. Right after a [connect_error] it changes nothing at
    all. *)
Lemma disconnect_keeps_errored :
  let s := deliver init (ConnectError sample_err) in
  connectionStatus s = Errored
  ∧ deliver s Disconnect = s
  ∧ connectionStatus (deliver s Disconnect) = Errored
  ∧ connectionStatus (deliver s Disconnect) ≠ Disconnected.
Proof. repeat split; try reflexivity. discriminate. Qed.

(** The same after a server [error] event on a live connection. *)
Example disconnect_after_server_error :
  connectionStatus (run init [Connect; ErrorEvent sample_err; Disconnect]) = Errored
  ∧ connected (run init [Connect; ErrorEvent sample_err; Disconnect]) = VBool false.
Proof. split; reflexivity. Qed.

(** C8, amended: [disconnect] lowers the [connected] flag and leaves the
    orderbook snapshot, the analytics result, the error message, the
    parameters and the socket as they were; the status becomes
    disconnected unless an error message is present, in which case it is
    errored. *)
Theorem disconnect_effect (s : AppState) :
  let s' := deliver s Disconnect in
  connected s' = VBool false
  ∧ orderbook s' = orderbook s
  ∧ analyticsResult s' = analyticsResult s
  ∧ error s' = error s
  ∧ params s' = params s
  ∧ socket s' = socket s
  ∧ connectionStatus s' = if truthy (error s) then Errored else Disconnected.
Proof. repeat split. Qed.

(** *** Data events (C9) *)

(** C9: [orderbook_update(data)] replaces the orderbook snapshot and
    nothing else, [analytics_update(data)] replaces the analytics result
    and nothing else; neither changes the connection status, the error
    message, the parameters or the other snapshot. *)
Theorem data_events_frame (data : JsVal) (s : AppState) :
  deliver s (OrderbookUpdate data) = setOrderbook data s
  ∧ deliver s (AnalyticsUpdate data) = setAnalyticsResult data s
  ∧ (let s' := deliver s (OrderbookUpdate data) in
     orderbook s' = data
     ∧ analyticsResult s' = analyticsResult s
     ∧ connected s' = connected s
     ∧ error s' = error s
     ∧ params s' = params s
     ∧ socket s' = socket s
     ∧ connectionStatus s' = connectionStatus s)
  ∧ (let s' := deliver s (AnalyticsUpdate data) in
     analyticsResult s' = data
     ∧ orderbook s' = orderbook s
     ∧ connected s' = connected s
     ∧ error s' = error s
     ∧ params s' = params s
     ∧ socket s' = socket s
     ∧ connectionStatus s' = connectionStatus s).
Proof. repeat split. Qed.

(** *** Parameter store (C3, C6, C7) *)

Lemma parseFloat_250 : parseFloat "250" = num_of_Z 250.
Proof. vm_compute. reflexivity. Qed.

Lemma handleParamChange_params name value s :
  params (fst (handleParamChange name value s))
  = VObj (<[name := if includes ["quantity"; "volatility"] name
                     then VNum (parseFloat value) else VStr value]>
            (spread (params s))).
Proof. reflexivity. Qed.

Lemma handleParamChange_emits name value s :
  snd (handleParamChange name value s)
  = if socket_open s
    then [mkEmit "parameter_update" (VObj {[name := VStr value]})]
    else [].
Proof. reflexivity. Qed.

(** Inbound events and transport changes never emit. *)
Lemma exec_silent (acts : list Action) :
  ∀ s, forallb (fun a => negb (is_edit a)) acts = true → snd (exec s acts) = [].
Proof.
  induction acts as [|a acts IH]; intros s H; [reflexivity|].
  simpl in H. apply andb_true_iff in H as [Ha Hrest].
  simpl. destruct (step s a) as [s1 out1] eqn:Hstep.
  specialize (IH s1 Hrest).
  destruct (exec s1 acts) as [s2 out2]. simpl in *. subst out2.
  destruct a as [ev|n v|up]; simpl in *; try discriminate;
    inversion Hstep; reflexivity.
Qed.

(** C3: with the socket open, editing [quantity] with the text ["250"]
    stores the number 250 under [quantity], keeps every other field and
    every other state cell, and emits exactly one [parameter_update]
    whose payload is the one-key object [{quantity: "250"}] holding the
    text, neither the number nor the stored parameters. For a parameter
    object the result is that very object with [quantity] set, so
    [exchange], [symbol], [order_type], [volatility] and [fee_tier] read
    as they did before the edit. *)
Theorem edit_quantity_250 (s : AppState) (Hopen : socket_open s = true) :
  let s' := fst (handleParamChange "quantity" "250" s) in
  let out := snd (handleParamChange "quantity" "250" s) in
  getProp (params s') "quantity" = Some (VNum (num_of_Z 250))
  ∧ (q ← getProp (params s') "quantity";
     Some (typeof q, strict_eq_num q (num_of_Z 250))) = Some ("number", true)
  ∧ (∀ m, params s = VObj m →
       params s' = VObj (<["quantity" := VNum (num_of_Z 250)]> m)
       ∧ Forall (fun k => getProp (params s') k = getProp (params s) k)
                ["exchange"; "symbol"; "order_type"; "volatility"; "fee_tier"])
  ∧ (∀ k, k ≠ "quantity" → spread (params s') !! k = spread (params s) !! k)
  ∧ (orderbook s' = orderbook s ∧ analyticsResult s' = analyticsResult s
     ∧ connected s' = connected s ∧ error s' = error s ∧ socket s' = socket s)
  ∧ out = [mkEmit "parameter_update" (VObj {["quantity" := VStr "250"]})]
  ∧ VObj {["quantity" := VStr "250"]} ≠ VObj {["quantity" := VNum (num_of_Z 250)]}
  ∧ VObj {["quantity" := VStr "250"]} ≠ params s'.
Proof.
  cbv zeta. rewrite handleParamChange_params, handleParamChange_emits, Hopen.
  change (includes ["quantity"; "volatility"] "quantity") with true. cbv iota.
  rewrite parseFloat_250.
  split_and!; try reflexivity.
  - simpl. rewrite lookup_insert_eq. reflexivity.
  - simpl. rewrite lookup_insert_eq. reflexivity.
  - intros m Hm. rewrite Hm. split; [reflexivity|].
    repeat constructor; simpl; rewrite lookup_insert_ne by discriminate;
      reflexivity.
  - intros k Hk. simpl. rewrite lookup_insert_ne by congruence. reflexivity.
  - intros H. inversion H.
  - intros H. injection H as H.
    apply (f_equal (fun m => m !! "quantity")) in H.
    rewrite lookup_insert_eq in H. discriminate.
Qed.

Lemma edit_quantity_250_witness :
  socket_open open_state = true
  ∧ snd (handleParamChange "quantity" "250" open_state)
    = [mkEmit "parameter_update" (VObj {["quantity" := VStr "250"]})]
  ∧ Forall (fun k => getProp (params (fst (handleParamChange "quantity" "250"
                                             open_state))) k
                     = getProp default_params k)
           ["exchange"; "symbol"; "order_type"; "volatility"; "fee_tier"]
  ∧ getProp (params (fst (handleParamChange "quantity" "250" open_state)))
            "fee_tier" = Some (VStr "VIP0").
Proof.
  split; [reflexivity|].
  pose proof (edit_quantity_250 open_state eq_refl) as H.
  split; [exact (proj1 (proj2 (proj2 (proj2 (proj2 (proj2 H))))))|].
  pose proof (proj2 (proj1 (proj2 (proj2 H)) _ eq_refl)) as Hfields.
  split; [exact Hfields|].
  exact (eq_trans
           (Forall_inv (Forall_inv_tail (Forall_inv_tail (Forall_inv_tail
              (Forall_inv_tail Hfields)))))
           eq_refl).
Defined.

(** "Connected" for the edit operation is the handle's own [connected]
    property: a server override that raises the [connected] cell does not
    make a closed socket emit. *)
Example override_does_not_open_socket :
  let s := deliver init (ConnectionStatus (VObj {["connected" := VBool true]})) in
  connected s = VBool true ∧ snd (handleParamChange "quantity" "250" s) = [].
Proof. split; reflexivity. Qed.

(** C7: with the socket absent or not connected, an edit of any field
    with any text updates the parameters exactly as it does with the
    socket open (the named field receives the coerced value), emits
    nothing, and leaves nothing behind to be sent: whatever inbound
    events and transport changes follow, nothing is emitted. *)
Theorem edit_while_closed (name value : string) (s : AppState) (k : Socket)
  (Hclosed : socket_open s = false) (Hk : sock_connected k = true) :
  let s' := fst (handleParamChange name value s) in
  snd (handleParamChange name value s) = []
  ∧ params s' = params (fst (handleParamChange name value (setSocket (Some k) s)))
  ∧ snd (handleParamChange name value (setSocket (Some k) s))
    = [mkEmit "parameter_update" (VObj {[name := VStr value]})]
  ∧ spread (params s') !! name
    = Some (if includes ["quantity"; "volatility"] name
            then VNum (parseFloat value) else VStr value)
  ∧ s' = setParams (params s') s
  ∧ (∀ acts, forallb (fun a => negb (is_edit a)) acts = true →
             snd (exec s' acts) = []).
Proof.
  cbv zeta. rewrite !handleParamChange_emits, !handleParamChange_params, Hclosed.
  repeat split.
  - unfold socket_open. simpl. rewrite Hk. reflexivity.
  - simpl. apply lookup_insert_eq.
  - intros acts Hacts. apply exec_silent. exact Hacts.
Qed.

Lemma edit_while_closed_witness :
  socket_open init = false
  ∧ snd (handleParamChange "quantity" "250" init) = [].
Proof.
  split; [reflexivity|].
  exact (proj1 (edit_while_closed "quantity" "250" init
                  (mkSocket "import.meta.env.VITE_SOCKET_URL" true) eq_refl eq_refl)).
Defined.

(** Only [parameter_update] touches the parameters among inbound events. *)
Lemma deliver_params s ev :
  params (deliver s ev)
  = match ev with ParameterUpdate p => p | _ => params s end.
Proof.
  unfold deliver.
  destruct ev as [| |err|d|d|st|ed|p]; simpl; try reflexivity.
  - destruct (getProp st "connected"); reflexivity.
  - destruct (getProp ed "message"); reflexivity.
Qed.

(** A typed parameter set is an object. *)
Lemma params_typed_obj p :
  Spec.params_typed p = true → ∃ m, p = VObj m.
Proof.
  destruct p as [| |b|x|t|l|m]; try (intros H; discriminate H).
  - eauto.
Qed.

Lemma has_type_insert ty m k name v :
  (name = k → typeof v = ty) →
  Spec.has_type ty (VObj m) k = true →
  Spec.has_type ty (VObj (<[name := v]> m)) k = true.
Proof.
  unfold Spec.has_type. simpl. intros Hv H.
  destruct (decide (name = k)) as [->|Hne].
  - rewrite lookup_insert_eq. simpl. rewrite Hv by reflexivity.
    apply String.eqb_refl.
  - rewrite lookup_insert_ne by exact Hne. exact H.
Qed.

(** A local edit keeps the typing: the two numeric fields receive
    [parseFloat] of the text, every other field the text itself. *)
Lemma edit_keeps_typed name value s :
  Spec.params_typed (params s) = true →
  Spec.params_typed (params (fst (handleParamChange name value s))) = true.
Proof.
  intros H. destruct (params_typed_obj _ H) as [m Hm].
  rewrite handleParamChange_params, Hm. rewrite Hm in H. simpl spread.
  unfold Spec.params_typed in *. simpl forallb in *.
  rewrite !andb_true_iff in *. destruct_and!.
  split_and!; try reflexivity;
    (apply has_type_insert; [intros ->; reflexivity | assumption]).
Qed.

Lemma step_keeps_typed s a :
  pushes_typed a = true →
  Spec.params_typed (params s) = true →
  Spec.params_typed (params (fst (step s a))) = true.
Proof.
  intros Ha Hs. destruct a as [ev|name value|up]; simpl.
  - rewrite deliver_params. destruct ev; simpl in *; assumption.
  - apply edit_keeps_typed. exact Hs.
  - destruct (socket s); exact Hs.
Qed.

Lemma exec_keeps_typed acts :
  ∀ s, forallb pushes_typed acts = true →
       Spec.params_typed (params s) = true →
       Spec.params_typed (params (fst (exec s acts))) = true.
Proof.
  induction acts as [|a acts IH]; intros s H Hs; [exact Hs|].
  simpl in H. apply andb_true_iff in H as [Ha Hrest].
  simpl. pose proof (step_keeps_typed s a Ha Hs) as Hstep.
  destruct (step s a) as [s1 out1]. simpl in Hstep.
  specialize (IH s1 Hrest Hstep).
  destruct (exec s1 acts) as [s2 out2]. exact IH.
Qed.

(** C6, as stated, fails: a pushed parameter set is stored as it comes.
    After a [parameter_update] whose [quantity] is the text ["500"] the
    stored [quantity] is a string. *)
Lemma pushed_text_quantity_stored :
  let s := fst (exec init [Inbound (ParameterUpdate text_quantity_params)]) in
  (typeof <$> getProp (params s) "quantity") = Some "string"
  ∧ Spec.params_typed (params s) = false.
Proof. split; vm_compute; reflexivity. Qed.

(** C6, amended: starting from the initial parameters, after any
    interleaving of local edits, inbound events and transport changes in
    which every pushed [parameter_update] payload is itself typed as the
    data model says, [quantity] and [volatility] are numbers and
    [exchange], [symbol], [order_type] and [fee_tier] are strings. Local
    edits alone never break the typing. *)
Theorem params_stay_typed (acts : list Action)
  (Hpush : forallb pushes_typed acts = true) :
  Spec.params_typed (params (fst (exec init acts))) = true.
Proof.
  apply exec_keeps_typed; [exact Hpush|]. vm_compute. reflexivity.
Qed.

Lemma params_stay_typed_witness :
  forallb pushes_typed sample_session = true
  ∧ Spec.params_typed (params (fst (exec init sample_session))) = true.
Proof.
  split; [reflexivity|].
  exact (params_stay_typed sample_session eq_refl).
Defined.

(** *** Connection supervisor (C5) *)

Lemma initSocket_ignores_env (env1 env2 : Env) (s : AppState) :
  initSocket env1 s = initSocket env2 s.
Proof. reflexivity. Qed.

(** C5 at a concrete deployment: with [VITE_SOCKET_URL] set to
    [http://localhost:5000] the socket is created for the quoted text
    [import.meta.env.VITE_SOCKET_URL], not for the configured address. *)
Theorem endpoint_is_quoted_text :
  sample_env !! "VITE_SOCKET_URL" = Some "http://localhost:5000"
  ∧ (sock_url <$> socket (initSocket sample_env init))
    = Some "import.meta.env.VITE_SOCKET_URL"
  ∧ (sock_url <$> socket (initSocket sample_env init))
    ≠ sample_env !! "VITE_SOCKET_URL".
Proof. vm_compute. repeat split; try reflexivity. discriminate. Qed.

(** *** Stale data after a disconnect (C4) *)

(** What reaches the screen is the tree the component returned. *)
Lemma rendered_Some view t : rendered view = Some t → view = Some t.
Proof.
  unfold rendered, commit. destruct view as [n|]; simpl; [|discriminate].
  destruct (valid_tree n); [|discriminate]. intros H. exact H.
Qed.

Lemma OutputPanel_falsy now ar :
  truthy ar = false → OutputPanel now ar = Some waiting_card.
Proof. intros H. unfold OutputPanel. rewrite H. reflexivity. Qed.

Lemma OutputPanel_truthy now ar :
  truthy ar = true → OutputPanel now ar ≠ Some waiting_card.
Proof.
  intros H Heq. unfold OutputPanel in Heq. rewrite H in Heq. simpl in Heq.
  destruct (getProp ar "error") as [err|]; simpl in Heq; [|discriminate].
  destruct (truthy err); [discriminate|].
  bind_cases Heq. discriminate.
Qed.

(** What the live session shows: the symbol with one ask and two bids,
    and the formatted analytics. *)
Example live_orderbook_info :
  getOrderbookInfo (connected live_state) (orderbook live_state)
  = Some (Elem "span" [className "orderbook-info"]
            [Expr (VStr "BTC-USDT-SWAP"); Text " - "; Expr (VNum (num_of_Z 1));
             Text " asks, "; Expr (VNum (num_of_Z 2)); Text " bids"]).
Proof. vm_compute. reflexivity. Qed.

Example live_output :
  outputView sample_now live_state
  = Some (card_right
      [Elem "p" [] [strong "Expected Slippage:"; Text " ";
                    Text "1.250000 bps (0.0001250%)"; Text " — "; Text "$0.012500"];
       Elem "p" [] [strong "Expected Fees:"; Text " "; Text "$0.080000";
                    Text " ("; Text "0.08"; Text "%)"];
       Elem "p" [] [strong "Expected Market Impact:"; Text " ";
                    Text "0.500000 bps (0.0000500%)"; Text " — "; Text "$0.005000"];
       Elem "p" [] [strong "Net Cost:"; Text " ";
                    Text "9.750000 bps (0.0009750%)"; Text " — "; Text "$0.097500"];
       Elem "p" [] [strong "Maker/Taker Proportion:"; Text " "; Text "30.0";
                    Text "% / "; Text "70.0"; Text "%"];
       Elem "p" [] [strong "Internal Latency:"; Text " "; Text "0.42"; Text " ms"];
       Elem "p" [className "timestamp"] [Text "Last updated: "; Text sample_now]]).
Proof. vm_compute. reflexivity. Qed.

(** C4, as stated, fails for the orderbook: while the live session shows
    the symbol and the counts, after [disconnect] the status view of the
    retained state shows only "Disconnected from server", although the
    snapshot is still in the state. *)
Lemma disconnect_hides_orderbook_info :
  let s' := deliver live_state Disconnect in
  orderbook s' = sample_orderbook
  ∧ getOrderbookInfo (connected s') (orderbook s') = Some (Expr VNull)
  ∧ statusView sample_now s'
    = Some (Elem "div" [className "status-bar status-disconnected"]
              [Elem "div" [className "status-indicator"] [];
               Elem "div" [className "status-text"] [Text "Disconnected from server"];
               Expr VNull])
  ∧ (by_class "orderbook-info" <$> statusView sample_now s') = Some []
  ∧ (by_class "orderbook-info" <$> statusView sample_now live_state) ≠ Some [].
Proof. vm_compute. repeat split; try reflexivity. discriminate. Qed.

(** C4, amended: [disconnect] keeps the last orderbook snapshot and the
    last analytics result in the state; the analytics view renders
    exactly what it rendered before (the waiting card only if no result
    had arrived); the status view no longer shows the orderbook's symbol
    and counts, which it shows only while the [connected] flag is
    truthy. *)
Theorem stale_render_after_disconnect (now : string) (s : AppState) :
  let s' := deliver s Disconnect in
  orderbook s' = orderbook s
  ∧ analyticsResult s' = analyticsResult s
  ∧ outputView now s' = outputView now s
  ∧ (if truthy (analyticsResult s)
     then outputView now s' ≠ Some waiting_card
     else outputView now s' = Some waiting_card)
  ∧ getOrderbookInfo (connected s') (orderbook s') = Some (Expr VNull)
  ∧ statusView now s'
    = (fun text =>
         Elem "div" [className ("status-bar " +:+ getStatusClass (VBool false) (error s))]
           [Elem "div" [className "status-indicator"] [];
            Elem "div" [className "status-text"] [Text text];
            Expr VNull])
      <$> getStatusText now (VBool false) (orderbook s) (error s).
Proof.
  cbv zeta. split_and!; try reflexivity.
  - unfold outputView. simpl.
    destruct (truthy (analyticsResult s)) eqn:H.
    + intros Heq. apply rendered_Some in Heq.
      exact (OutputPanel_truthy now _ H Heq).
    + rewrite (OutputPanel_falsy now _ H). reflexivity.
  - unfold getOrderbookInfo. simpl. rewrite orb_true_r. reflexivity.
  - unfold statusView, OrderbookStatus, getOrderbookInfo. simpl.
    rewrite orb_true_r. simpl.
    destruct (getStatusText now (VBool false) (orderbook s) (error s)); reflexivity.
Qed.

(** *** The parameter form while disconnected (C10) *)

Lemma InputPanel_renders m connected : is_Some (InputPanel (VObj m) connected).
Proof. unfold InputPanel. simpl. eauto. Qed.





(* ===================================================================== *)
(** ** Further properties of the reconciler                                *)
(* ===================================================================== *)

(** X1: every handler is idempotent: delivering the same event twice in
    a row leaves the state it left the first time, including when the
    handler throws on its payload. *)
Theorem deliver_idempotent (s : AppState) (ev : Event) :
  deliver (deliver s ev) ev = deliver s ev.
Proof.
  unfold deliver.
  destruct ev as [| |err|d|d|st|ed|p]; simpl; try reflexivity.
  - destruct (getProp st "connected"); reflexivity.
  - destruct (getProp ed "message"); reflexivity.
Qed.

(** X2: events whose handlers share no setter commute: the state after
    both does not depend on which arrived first. *)
Theorem independent_events_commute (s : AppState) (e1 e2 : Event)
  (H : independent e1 e2 = true) :
  deliver (deliver s e1) e2 = deliver (deliver s e2) e1.
Proof.
  unfold deliver.
  destruct e1 as [| |err1|d1|d1|st1|ed1|p1], e2 as [| |err2|d2|d2|st2|ed2|p2];
    try discriminate H; simpl;
    repeat match goal with
           | |- context [getProp ?v ?k] => destruct (getProp v k); simpl
           end;
    reflexivity.
Qed.

Lemma independent_events_commute_witness :
  independent (OrderbookUpdate sample_orderbook) (ConnectError sample_err) = true
  ∧ run init [OrderbookUpdate sample_orderbook; ConnectError sample_err]
    = run init [ConnectError sample_err; OrderbookUpdate sample_orderbook].
Proof.
  split; [reflexivity|].
  exact (independent_events_commute init (OrderbookUpdate sample_orderbook)
           (ConnectError sample_err) eq_refl).
Defined.

Lemma deliver_data_cells s ev :
  orderbook (deliver s ev) = default (orderbook s) (pushed_orderbook ev)
  ∧ analyticsResult (deliver s ev) = default (analyticsResult s) (pushed_analytics ev)
  ∧ params (deliver s ev) = default (params s) (pushed_params ev)
  ∧ socket (deliver s ev) = socket s.
Proof.
  unfold deliver.
  destruct ev as [| |err|d|d|st|ed|p]; simpl; try (repeat split; reflexivity).
  - destruct (getProp st "connected"); repeat split.
  - destruct (getProp ed "message"); repeat split.
Qed.

Lemma run_data_cells (s : AppState) (evs : list Event) :
  orderbook (run s evs) = default (orderbook s) (last (omap pushed_orderbook evs))
  ∧ analyticsResult (run s evs)
    = default (analyticsResult s) (last (omap pushed_analytics evs))
  ∧ params (run s evs) = default (params s) (last (omap pushed_params evs))
  ∧ socket (run s evs) = socket s.
Proof.
  induction evs as [|ev evs IH] using rev_ind; [repeat split|].
  rewrite run_snoc, !last_omap_snoc.
  destruct (deliver_data_cells (run s evs) ev) as (Ho & Ha & Hp & Hs).
  destruct IH as (IHo & IHa & IHp & IHs).
  rewrite Ho, Ha, Hp, Hs, IHo, IHa, IHp, IHs. repeat split.
Qed.

(** X3: after any sequence of inbound events each of the three data
    cells holds the payload of the most recent event of its own kind
    ([orderbook_update], [analytics_update], [parameter_update]), or
    what it held before if none arrived; the socket handle is the one
    the sequence started with. *)
Theorem data_cells_last_writer (s : AppState) (evs : list Event) :
  orderbook (run s evs) = default (orderbook s) (last (omap pushed_orderbook evs))
  ∧ analyticsResult (run s evs)
    = default (analyticsResult s) (last (omap pushed_analytics evs))
  ∧ params (run s evs) = default (params s) (last (omap pushed_params evs))
  ∧ socket (run s evs) = socket s.
Proof. exact (run_data_cells s evs). Qed.

(** X4: a [connect] resets the connection status whatever came before:
    after any history ending in [connect] the status is connected and no
    error message is left; after any history ending in [connect_error]
    it is errored. *)
Theorem connect_resets_status (s : AppState) (evs : list Event) (err : JsVal) :
  connectionStatus (run s (evs ++ [Connect])) = Connected
  ∧ error (run s (evs ++ [Connect])) = VNull
  ∧ connectionStatus (run s (evs ++ [ConnectError err])) = Errored.
Proof. rewrite !run_snoc. repeat split. Qed.

(** X5: the only deliveries that throw are [connection_status] and
    [error] with a [null] or [undefined] payload, and those leave the
    whole state as it was; every other delivery runs its handler. *)
Theorem handler_throws_iff (s : AppState) (ev : Event) :
  (on ev s = None ↔
   match ev with
   | ConnectionStatus payload | ErrorEvent payload => is_nullish payload = true
   | _ => False
   end)
  ∧ (on ev s = None → deliver s ev = s).
Proof.
  split.
  - destruct ev as [| |err|d|d|st|ed|p]; simpl; try (split; [discriminate|tauto]).
    + destruct st; simpl; split; intros H; try discriminate H; try reflexivity;
        repeat case_match; discriminate.
    + destruct ed; simpl; split; intros H; try discriminate H; try reflexivity;
        repeat case_match; discriminate.
  - intros H. unfold deliver. rewrite H. reflexivity.
Qed.

(* ===================================================================== *)
(** ** Further properties of the parameter store                           *)
(* ===================================================================== *)

Lemma exec_app (acts1 acts2 : list Action) :
  ∀ s, exec s (acts1 ++ acts2)
       = (fst (exec (fst (exec s acts1)) acts2),
          snd (exec s acts1) ++ snd (exec (fst (exec s acts1)) acts2)).
Proof.
  induction acts1 as [|a acts1 IH]; intros s; simpl.
  - destruct (exec s acts2); reflexivity.
  - destruct (step s a) as [s1 out1]. rewrite IH.
    destruct (exec s1 acts1) as [s2 out2]. simpl.
    rewrite app_assoc. reflexivity.
Qed.

Lemma exec_cons s a acts :
  exec s (a :: acts)
  = (fst (exec (fst (step s a)) acts),
     snd (step s a) ++ snd (exec (fst (step s a)) acts)).
Proof.
  simpl. destruct (step s a) as [s1 out1]. simpl.
  destruct (exec s1 acts); reflexivity.
Qed.

Lemma deliver_same_reconciled s1 s2 ev :
  same_reconciled s1 s2 → same_reconciled (deliver s1 ev) (deliver s2 ev).
Proof.
  unfold same_reconciled, deliver. intros (Hc & He & Ho & Ha).
  destruct ev as [| |err|d|d|st|ed|p]; simpl; try (repeat split; assumption).
  - destruct (getProp st "connected"); repeat split; assumption.
  - destruct (getProp ed "message"); repeat split; assumption.
Qed.

Lemma same_reconciled_trans s1 s2 s3 :
  same_reconciled s1 s2 → same_reconciled s2 s3 → same_reconciled s1 s3.
Proof.
  unfold same_reconciled. intros (-> & -> & -> & ->) H. exact H.
Qed.

Lemma run_same_reconciled evs :
  ∀ s1 s2, same_reconciled s1 s2 → same_reconciled (run s1 evs) (run s2 evs).
Proof.
  induction evs as [|ev evs IH]; intros s1 s2 H; [exact H|].
  simpl. apply IH, deliver_same_reconciled, H.
Qed.

(** X6: local edits and transport changes never disturb what the
    reconciler holds: after any interleaving of actions the connection
    flag, the error message, the orderbook snapshot and the analytics
    result are exactly what the inbound events alone would have left. *)
Theorem edits_leave_reconciled_cells (s : AppState) (acts : list Action) :
  same_reconciled (fst (exec s acts)) (run s (inbound_of acts)).
Proof.
  revert s. induction acts as [|a acts IH]; intros s.
  - repeat split.
  - rewrite exec_cons. cbn [fst].
    destruct a as [ev|name value|up].
    + exact (IH (deliver s ev)).
    + eapply same_reconciled_trans; [apply IH|].
      apply run_same_reconciled. repeat split.
    + eapply same_reconciled_trans; [apply IH|].
      apply run_same_reconciled. simpl. destruct (socket s); repeat split.
Qed.

(** X7: the only thing [App] ever sends is [parameter_update] with a
    one-key object holding the edited field's raw text, at most one per
    edit; inbound events and transport changes send nothing. *)
Theorem emits_are_single_field_updates (s : AppState) (acts : list Action) :
  Forall (fun e => emit_event e = "parameter_update"
                   ∧ ∃ name value, emit_payload e = VObj {[name := VStr value]})
         (snd (exec s acts))
  ∧ (length (snd (exec s acts)) ≤ length (edits_of acts))%nat.
Proof.
  revert s. induction acts as [|a acts IH]; intros s.
  - split; [constructor | simpl; lia].
  - rewrite exec_cons. simpl snd.
    destruct (IH (fst (step s a))) as [IHf IHl].
    destruct a as [ev|name value|up]; simpl in IHf, IHl |- *.
    + split; assumption.
    + destruct (socket_open s); simpl.
      * split; [constructor; [split; [reflexivity|eauto]|assumption] | lia].
      * split; [assumption | lia].
    + split; assumption.
Qed.

(** X8: as long as the socket is open and the transport does not change
    it, every edit is sent, in order: the emits are exactly one
    [parameter_update] per edit, each carrying that edit's field and raw
    text. *)
Theorem open_socket_sends_every_edit (s : AppState) (acts : list Action)
  (Hopen : socket_open s = true)
  (Hlink : forallb (fun a => negb (is_link a)) acts = true) :
  snd (exec s acts) = emit_of <$> edits_of acts.
Proof.
  revert s Hopen. induction acts as [|a acts IH]; intros s Hopen; [reflexivity|].
  simpl in Hlink. apply andb_true_iff in Hlink as [Ha Hrest].
  rewrite exec_cons. simpl snd.
  destruct a as [ev|name value|up]; simpl in *; try discriminate.
  - apply IH; [exact Hrest|].
    unfold socket_open. destruct (deliver_data_cells s ev) as (_ & _ & _ & ->).
    exact Hopen.
  - rewrite Hopen. simpl. f_equal. apply IH; [exact Hrest | exact Hopen].
Qed.

Lemma open_socket_sends_every_edit_witness :
  socket_open open_state = true
  ∧ snd (exec open_state sample_session)
    = [mkEmit "parameter_update" (VObj {["quantity" := VStr "250"]});
       mkEmit "parameter_update" (VObj {["fee_tier" := VStr "VIP3"]});
       mkEmit "parameter_update" (VObj {["volatility" := VStr "abc"]})].
Proof.
  split; [reflexivity|].
  exact (open_socket_sends_every_edit open_state sample_session eq_refl eq_refl).
Defined.

(** X9: neither the reconciler nor the parameter store ever creates or
    drops the socket handle: without a socket nothing is ever emitted and
    none appears, and with one the handle stays for the same address. *)
Theorem socket_never_recreated (s : AppState) (acts : list Action) :
  (sock_url <$> socket (fst (exec s acts))) = (sock_url <$> socket s)
  ∧ (socket s = None → snd (exec s acts) = []).
Proof.
  revert s. induction acts as [|a acts IH]; intros s; [split; reflexivity|].
  rewrite exec_cons. simpl fst. simpl snd.
  destruct (IH (fst (step s a))) as [IHu IHn].
  destruct a as [ev|name value|up]; simpl in *.
  - destruct (deliver_data_cells s ev) as (_ & _ & _ & Hs).
    rewrite IHu, Hs. split; [reflexivity|]. intros H. apply IHn. congruence.
  - rewrite IHu. split; [reflexivity|]. intros H.
    unfold socket_open. rewrite H. simpl. apply IHn. exact H.
  - destruct (socket s) as [k|] eqn:Hk; simpl in *.
    + rewrite IHu. split; [reflexivity | discriminate].
    + rewrite IHu, Hk. split; [reflexivity|]. intros _. apply IHn. exact Hk.
Qed.

Lemma handleParamChange_coerce name value s :
  params (fst (handleParamChange name value s))
  = VObj (<[name := coerce name value]> (spread (params s))).
Proof. reflexivity. Qed.

(** X10: edits compose as updates of a record: editing the same field
    twice leaves what the second edit alone would leave, and edits of
    two different fields give the same parameters in either order. *)
Theorem edits_compose (n1 n2 v1 v2 : string) (s : AppState) :
  params (fst (handleParamChange n1 v2 (fst (handleParamChange n1 v1 s))))
  = params (fst (handleParamChange n1 v2 s))
  ∧ (n1 ≠ n2 →
     params (fst (handleParamChange n2 v2 (fst (handleParamChange n1 v1 s))))
     = params (fst (handleParamChange n1 v1 (fst (handleParamChange n2 v2 s))))).
Proof.
  rewrite !handleParamChange_coerce. simpl spread. split.
  - rewrite insert_insert_eq. reflexivity.
  - intros Hne. rewrite insert_insert_ne by congruence. reflexivity.
Qed.

(** X11: an edit of a parameter object changes the one field it names:
    the new parameters are the old object with that key set to the
    coerced text ([parseFloat] of it for [quantity] and [volatility],
    the text itself otherwise), so each of the six parameter fields
    reads as the coerced text if it is the edited one and as it read
    before otherwise. *)
Theorem edit_then_read (name value : string) (s : AppState)
  (m : gmap string JsVal) (Hobj : params s = VObj m) :
  params (fst (handleParamChange name value s))
  = VObj (<[name := coerce name value]> m)
  ∧ Forall (fun k =>
              getProp (params (fst (handleParamChange name value s))) k
              = if String.eqb name k then Some (coerce name value)
                else getProp (params s) k)
           field_names.
Proof.
  rewrite handleParamChange_coerce, Hobj. split; [reflexivity|].
  unfold field_names.
  repeat constructor; simpl;
    match goal with
    | |- context [String.eqb name ?k] =>
        destruct (String.eqb_spec name k) as [->|Hne];
        [rewrite lookup_insert_eq | rewrite lookup_insert_ne by exact Hne];
        reflexivity
    end.
Qed.

Lemma edit_then_read_witness :
  Forall (fun k =>
            getProp (params (fst (handleParamChange "fee_tier" "VIP3" init))) k
            = if String.eqb "fee_tier" k then Some (VStr "VIP3")
              else getProp default_params k)
         field_names.
Proof.
  exact (proj2 (edit_then_read "fee_tier" "VIP3" init _ eq_refl)).
Defined.

Lemma exec_params_congr acts :
  ∀ s1 s2, params s1 = params s2 →
           params (fst (exec s1 acts)) = params (fst (exec s2 acts)).
Proof.
  induction acts as [|a acts IH]; intros s1 s2 H; [exact H|].
  rewrite !exec_cons. cbn [fst]. apply IH.
  destruct a as [ev|name value|up]; cbn [step fst].
  - destruct (deliver_data_cells s1 ev) as (_ & _ & -> & _).
    destruct (deliver_data_cells s2 ev) as (_ & _ & -> & _).
    rewrite H. reflexivity.
  - rewrite !handleParamChange_coerce, H. reflexivity.
  - destruct (socket s1), (socket s2); exact H.
Qed.

(** X12: a server correction overrides everything before it: whatever
    edits and events preceded a [parameter_update(p)], the parameters
    afterwards are those obtained by starting from [p] and applying only
    what follows it. *)
Theorem correction_overrides_history (s : AppState) (pre post : list Action)
  (p : JsVal) :
  params (fst (exec s (pre ++ Inbound (ParameterUpdate p) :: post)))
  = params (fst (exec (setParams p s) post))
  ∧ params (fst (exec s (pre ++ [Inbound (ParameterUpdate p)]))) = p.
Proof.
  split.
  - rewrite exec_app. cbn [fst]. rewrite exec_cons. cbn [fst].
    apply exec_params_congr. reflexivity.
  - rewrite exec_app. reflexivity.
Qed.

Lemma trim_start_cons c r :
  trim_start (String c r)
  = if is_space c then trim_start r
    else match r with
         | String d r2 =>
             if is_space2 c d then trim_start r2
             else match r2 with
                  | String e r3 =>
                      if is_space3 c d e then trim_start r3 else String c r
                  | EmptyString => String c r
                  end
         | EmptyString => String c r
         end.
Proof. reflexivity. Qed.

Lemma all_space_cons c r :
  all_space (String c r)
  = if is_space c then all_space r
    else match r with
         | String d r2 =>
             if is_space2 c d then all_space r2
             else match r2 with
                  | String e r3 => is_space3 c d e && all_space r3
                  | EmptyString => false
                  end
         | EmptyString => false
         end.
Proof. reflexivity. Qed.

Lemma trim_start_blank_bounded (n : nat) :
  ∀ v, (String.length v ≤ n)%nat → all_space v = true → trim_start v = "".
Proof.
  induction n as [|n IH]; intros v Hlen H.
  - destruct v; [reflexivity | simpl in Hlen; lia].
  - destruct v as [|c r]; [reflexivity|].
    rewrite trim_start_cons. rewrite all_space_cons in H.
    cbn [String.length] in Hlen.
    destruct (is_space c); [apply IH; [lia | exact H]|].
    destruct r as [|d r2]; [discriminate H|]. cbn [String.length] in Hlen.
    destruct (is_space2 c d); [apply IH; [lia | exact H]|].
    destruct r2 as [|e r3]; [discriminate H|]. cbn [String.length] in Hlen.
    apply andb_true_iff in H as [-> H]. apply IH; [lia | exact H].
Qed.

Lemma trim_start_blank v : all_space v = true → trim_start v = "".
Proof. apply (trim_start_blank_bounded (String.length v)). lia. Qed.

(** X13: clearing a numeric field stores not-a-number: for an empty or
    blank text the edit of [quantity] or [volatility] stores NaN, a value
    of type number that is falsy and not equal to itself, and the raw
    text is what is sent. *)
Theorem blank_numeric_edit_stores_nan (name value : string) (s : AppState)
  (Hname : includes ["quantity"; "volatility"] name = true)
  (Hblank : all_space value = true) :
  getProp (params (fst (handleParamChange name value s))) name = Some (VNum nan)
  ∧ typeof (VNum nan) = "number"
  ∧ truthy (VNum nan) = false
  ∧ strict_eq_num (VNum nan) nan = false
  ∧ (socket_open s = true →
     snd (handleParamChange name value s)
     = [mkEmit "parameter_update" (VObj {[name := VStr value]})]).
Proof.
  split_and!; try reflexivity.
  - rewrite handleParamChange_params, Hname. simpl.
    rewrite lookup_insert_eq. unfold parseFloat.
    rewrite (trim_start_blank _ Hblank). reflexivity.
  - intros Hopen. rewrite handleParamChange_emits, Hopen. reflexivity.
Qed.

Lemma blank_numeric_edit_stores_nan_witness :
  includes ["quantity"; "volatility"] "quantity" = true
  ∧ all_space "" = true
  ∧ getProp (params (fst (handleParamChange "quantity" "" init))) "quantity"
    = Some (VNum nan).
Proof.
  split; [reflexivity|]. split; [reflexivity|].
  exact (proj1 (blank_numeric_edit_stores_nan "quantity" "" init eq_refl eq_refl)).
Defined.

(* ===================================================================== *)
(** ** Further properties of the views                                     *)
(* ===================================================================== *)

Lemma getProp_truthy v k : truthy v = true → is_Some (getProp v k).
Proof.
  destruct v; simpl; try discriminate; intros _; eauto.
  - destruct (String.eqb k "length"); eauto.
  - destruct (String.eqb k "length"); eauto.
Qed.

(** When it is shown, the orderbook line holds the symbol and the two
    counts. *)
Lemma getOrderbookInfo_shown connected orderbook :
  truthy orderbook = true → truthy connected = true →
  getOrderbookInfo connected orderbook
  = Some (info_span (default VUndefined (getProp orderbook "symbol"))
                    (level_count orderbook "asks") (level_count orderbook "bids")).
Proof.
  intros Hob Hc. unfold getOrderbookInfo, level_count. rewrite Hob, Hc. simpl.
  destruct (getProp_truthy orderbook "asks" Hob) as [asks ->].
  destruct (getProp_truthy orderbook "bids" Hob) as [bids ->].
  destruct (getProp_truthy orderbook "symbol" Hob) as [symbol ->]. simpl.
  destruct (truthy asks) eqn:Ha; simpl.
  - destruct (getProp_truthy asks "length" Ha) as [? ->]. simpl.
    destruct (truthy bids) eqn:Hb; simpl; [|reflexivity].
    destruct (getProp_truthy bids "length" Hb) as [? ->]. reflexivity.
  - destruct (truthy bids) eqn:Hb; simpl; [|reflexivity].
    destruct (getProp_truthy bids "length" Hb) as [? ->]. reflexivity.
Qed.

Lemma getOrderbookInfo_hidden connected orderbook :
  truthy orderbook && truthy connected = false →
  getOrderbookInfo connected orderbook = Some (Expr VNull).
Proof.
  intros H. unfold getOrderbookInfo.
  destruct (truthy orderbook), (truthy connected); try discriminate H; reflexivity.
Qed.

Lemma getOrderbookInfo_total connected orderbook :
  is_Some (getOrderbookInfo connected orderbook).
Proof.
  destruct (truthy orderbook && truthy connected) eqn:H.
  - apply andb_true_iff in H as [Hob Hc].
    rewrite (getOrderbookInfo_shown _ _ Hob Hc). eauto.
  - rewrite (getOrderbookInfo_hidden _ _ H). eauto.
Qed.

(** React accepts the orderbook line exactly when its three values are
    valid children. *)
Lemma commit_info_span a b c :
  is_Some (commit (info_span a b c))
  ↔ Forall (fun v => valid_child v = true) [a; b; c].
Proof.
  unfold commit. simpl. rewrite !Forall_cons, Forall_nil.
  destruct (valid_child a), (valid_child b), (valid_child c); simpl;
    split; try (intros [? H]; discriminate H); eauto; intros (? & ? & ? & _);
    discriminate.
Qed.

Lemma rendered_info_iff connected orderbook :
  is_Some (rendered (getOrderbookInfo connected orderbook))
  ↔ (truthy orderbook && truthy connected = true →
     Forall (fun v => valid_child v = true) (info_children orderbook)).
Proof.
  destruct (truthy orderbook && truthy connected) eqn:H.
  - apply andb_true_iff in H as [Hob Hc].
    rewrite (getOrderbookInfo_shown _ _ Hob Hc). unfold rendered. simpl.
    rewrite commit_info_span. unfold info_children. tauto.
  - rewrite (getOrderbookInfo_hidden _ _ H). split; [discriminate | eauto].
Qed.

(** X14: the orderbook line tolerates missing sides: for a connected
    view of an orderbook object whose [asks] and [bids] are each absent
    or an array and whose [symbol] is a value React can show, the line
    is rendered and shows the [symbol] property followed by the number
    of asks and of bids, an absent side counting as zero. *)
Theorem orderbook_info_counts (connected : JsVal) (m : gmap string JsVal)
  (Hc : truthy connected = true)
  (Hasks : side_ok m "asks" = true) (Hbids : side_ok m "bids" = true)
  (Hsym : valid_child (default VUndefined (m !! "symbol")) = true) :
  rendered (getOrderbookInfo connected (VObj m))
  = Some (Elem "span" [className "orderbook-info"]
            [Expr (default VUndefined (m !! "symbol")); Text " - ";
             Expr (VNum (num_of_nat (levels m "asks"))); Text " asks, ";
             Expr (VNum (num_of_nat (levels m "bids"))); Text " bids"]).
Proof.
  unfold rendered, commit, getOrderbookInfo, side_ok, levels in *.
  rewrite Hc. simpl.
  destruct (m !! "asks") as [[| | | | |la|]|]; try discriminate Hasks;
    destruct (m !! "bids") as [[| | | | |lb|]|]; try discriminate Hbids;
    simpl; rewrite Hsym; reflexivity.
Qed.

Lemma orderbook_info_counts_witness :
  rendered (getOrderbookInfo (VBool true) bids_only_orderbook)
  = Some (Elem "span" [className "orderbook-info"]
            [Expr (VStr "BTC-USDT-SWAP"); Text " - ";
             Expr (VNum (num_of_Z 0)); Text " asks, ";
             Expr (VNum (num_of_Z 3)); Text " bids"]).
Proof.
  exact (orderbook_info_counts (VBool true)
           (list_to_map
              [("symbol", VStr "BTC-USDT-SWAP");
               ("bids", VArr [VArr [VStr "67000.1"; VStr "1.5"];
                              VArr [VStr "67000.0"; VStr "2"];
                              VArr [VStr "66999.9"; VStr "4"]])])
           eq_refl eq_refl eq_refl eq_refl).
Defined.

Lemma getStatusText_some now connected orderbook error :
  is_Some (getStatusText now connected orderbook error)
  ↔ (truthy error = false ∨ is_Some (toString error)).
Proof.
  unfold getStatusText. destruct (truthy error) eqn:He.
  - destruct (toString error) as [e|]; simpl.
    + split; eauto.
    + split; [intros [? H]; discriminate H|].
      intros [H|[? H]]; discriminate H.
  - split; [eauto|]. intros _.
    destruct (truthy connected); [destruct (truthy orderbook)|]; eauto.
Qed.

(** X15: the status bar is rendered exactly when two things hold: the
    error value, if truthy, has a string form (so the text can be
    built), and the orderbook line, if shown, has a symbol and counts
    React accepts as children. A payload whose symbol is an object
    fails the render while the connection is up. *)
Theorem status_bar_renders_iff (now : string) (connected orderbook error : JsVal) :
  is_Some (rendered (OrderbookStatus now connected orderbook error))
  ↔ (truthy error = false ∨ is_Some (toString error))
    ∧ (truthy orderbook && truthy connected = true →
       Forall (fun v => valid_child v = true) (info_children orderbook)).
Proof.
  rewrite <- (getStatusText_some now connected orderbook error),
          <- (rendered_info_iff connected orderbook).
  unfold OrderbookStatus.
  destruct (getStatusText now connected orderbook error) as [text|]; simpl.
  - destruct (getOrderbookInfo_total connected orderbook) as [info ->].
    unfold rendered, commit. simpl. rewrite andb_true_r.
    destruct (valid_tree info); simpl.
    + split; [intros _; split; eauto | intros _; eauto].
    + split; [intros [? H]; discriminate H | intros [_ [? H]]; discriminate H].
  - split; [intros [? H]; discriminate H|]. intros [[? H] _]. discriminate H.
Qed.

Example object_symbol_fails_status_bar :
  rendered (OrderbookStatus sample_now (VBool true) object_symbol_orderbook VNull)
  = None
  ∧ is_Some (rendered (OrderbookStatus sample_now (VBool false)
                         object_symbol_orderbook VNull)).
Proof. vm_compute. split; eauto. Qed.

(** X16: the status text and the status class never disagree: whenever
    the text is produced, it begins with "Error: " exactly when the class
    is the error class, with "Connected - " exactly when it is the
    connected class, and is "Disconnected from server" exactly when it
    is the disconnected class. *)
Theorem status_text_matches_class (now : string) (connected orderbook error : JsVal)
  (text : string)
  (H : getStatusText now connected orderbook error = Some text) :
  starts_with "Error: " text
  = String.eqb (getStatusClass connected error) "status-error"
  ∧ starts_with "Connected - " text
    = String.eqb (getStatusClass connected error) "status-connected"
  ∧ String.eqb text "Disconnected from server"
    = String.eqb (getStatusClass connected error) "status-disconnected".
Proof.
  unfold getStatusClass, getStatusText in *.
  destruct (truthy error).
  - destruct (toString error) as [e|]; [|discriminate H].
    injection H as <-. repeat split.
  - destruct (truthy connected).
    + destruct (truthy orderbook); injection H as <-; repeat split.
    + injection H as <-. repeat split.
Qed.

Lemma status_text_matches_class_witness :
  getStatusText sample_now (VBool false) VNull (VStr "WebSocket connection failed")
  = Some "Error: WebSocket connection failed"
  ∧ starts_with "Error: " "Error: WebSocket connection failed"
    = String.eqb (getStatusClass (VBool false) (VStr "WebSocket connection failed"))
                 "status-error".
Proof.
  split; [reflexivity|].
  exact (proj1 (status_text_matches_class sample_now (VBool false) VNull
                  (VStr "WebSocket connection failed")
                  "Error: WebSocket connection failed" eq_refl)).
Defined.

Lemma num_at_formatBps ar a b :
  num_at ar a b = isSome (path2 ar a b ≫= formatBps).
Proof.
  unfold num_at. destruct (path2 ar a b) as [[]|]; reflexivity.
Qed.

Lemma num_at_formatCurrency ar a b :
  num_at ar a b = isSome (path2 ar a b ≫= formatCurrency).
Proof.
  unfold num_at. destruct (path2 ar a b) as [[]|]; reflexivity.
Qed.

Lemma num_at_toFixed ar a b f :
  num_at ar a b = isSome (path2 ar a b ≫= (fun v => call_toFixed v f)).
Proof.
  unfold num_at. destruct (path2 ar a b) as [[]|]; reflexivity.
Qed.

Lemma coercible_at_percent ar a b f :
  coercible_at ar a b = isSome (path2 ar a b ≫= (fun v => percent v f)).
Proof.
  unfold coercible_at, percent, js_mul.
  destruct (path2 ar a b) as [v|]; [|reflexivity]. simpl.
  destruct (toNumber v); reflexivity.
Qed.

(** X17: when an analytics result is present and reports no error, the
    analytics view renders exactly when the nine fields it formats with
    [toFixed] are Numbers and the three ratios it multiplies by 100 can
    be coerced to one; a missing section or a non-numeric field makes
    the render throw. *)
Theorem output_renders_iff (now : string) (ar : JsVal)
  (Har : truthy ar = true)
  (Herr : truthy (default VUndefined (getProp ar "error")) = false) :
  is_Some (OutputPanel now ar) ↔ renderable ar = true.
Proof.
  unfold OutputPanel, renderable. rewrite Har. simpl negb. cbv iota.
  destruct (getProp_truthy ar "error" Har) as [err Hget].
  rewrite Hget in Herr |- *. simpl in Herr |- *. rewrite Herr.
  rewrite (num_at_formatBps ar "slippage" "bps"),
          (num_at_formatCurrency ar "slippage" "cost"),
          (num_at_formatCurrency ar "fees" "amount"),
          (coercible_at_percent ar "fees" "weighted_rate" 2),
          (num_at_formatBps ar "market_impact" "total_bps"),
          (num_at_formatCurrency ar "market_impact" "cost"),
          (num_at_formatBps ar "net_cost" "bps"),
          (num_at_formatCurrency ar "net_cost" "amount"),
          (coercible_at_percent ar "maker_taker" "maker_ratio" 1),
          (coercible_at_percent ar "maker_taker" "taker_ratio" 1),
          (num_at_toFixed ar "latency" "processing_time_ms" 2).
  repeat match goal with
         | |- context [isSome ?x] =>
             destruct x; simpl;
             [| split; [intros [? H]; discriminate H | discriminate]]
         end.
  split; eauto.
Qed.

Lemma output_renders_iff_witness :
  truthy sample_analytics = true
  ∧ renderable sample_analytics = true
  ∧ is_Some (OutputPanel sample_now sample_analytics).
Proof.
  split; [reflexivity|]. split; [reflexivity|].
  exact (proj2 (output_renders_iff sample_now sample_analytics eq_refl eq_refl)
               eq_refl).
Defined.

(** X18: while no analytics result has arrived the waiting card is
    rendered. A result with a truthy [error] field becomes the error
    card showing that value, whatever its other fields hold or lack, and
    the card is rendered exactly when the error value is one React
    accepts as a child (a string, number or boolean, or an array of
    such); an object-valued error fails the render. Neither card depends
    on the time of the render. *)
Theorem output_error_and_waiting_cards (now1 now2 : string) (ar : JsVal) :
  (truthy ar = false →
   rendered (OutputPanel now1 ar) = Some waiting_card
   ∧ OutputPanel now2 ar = OutputPanel now1 ar)
  ∧ (∀ err, truthy ar = true → getProp ar "error" = Some err → truthy err = true →
     OutputPanel now1 ar
     = Some (card_right
               [Elem "div" [className "error-message"] [Text "Error: "; Expr err]])
     ∧ rendered (OutputPanel now1 ar)
       = (if valid_child err then OutputPanel now1 ar else None)
     ∧ OutputPanel now2 ar = OutputPanel now1 ar).
Proof.
  split.
  - intros H. unfold OutputPanel. rewrite H. split; reflexivity.
  - intros err Har Hget Herr. unfold OutputPanel.
    rewrite Har, Hget. simpl. rewrite Herr. split_and!; try reflexivity.
    unfold rendered, commit. simpl. rewrite andb_true_r.
    destruct (valid_child err); reflexivity.
Qed.

Lemma output_error_and_waiting_cards_witness :
  rendered (OutputPanel sample_now failed_analytics)
  = Some (card_right
            [Elem "div" [className "error-message"]
               [Text "Error: "; Expr (VStr "Insufficient orderbook depth")]])
  ∧ rendered (OutputPanel sample_now object_error_analytics) = None.
Proof.
  split.
  - exact (eq_trans
             (proj1 (proj2 (proj2 (output_error_and_waiting_cards sample_now
                                     sample_now failed_analytics)
                              (VStr "Insufficient orderbook depth")
                              eq_refl eq_refl eq_refl)))
             eq_refl).
  - exact (proj1 (proj2 (proj2 (output_error_and_waiting_cards sample_now
                                  sample_now object_error_analytics)
                           (VObj {["code" := VNum (num_of_Z 1)]})
                           eq_refl eq_refl eq_refl))).
Defined.

Lemma InputPanel_nullish params connected :
  InputPanel params connected = None ↔ is_nullish params = true.
Proof.
  unfold InputPanel.
  destruct params; simpl; split; intros H; try discriminate H; reflexivity.
Qed.

(** X19: the parameter form shows what is stored and follows the
    connection flag: it throws exactly when the parameters are [null] or
    [undefined]; otherwise each of the six controls carries the stored
    property of its name as its value, every control is disabled exactly
    when the flag is falsy, and the notice appears exactly then. *)
Theorem form_reflects_state (params connected : JsVal) :
  (InputPanel params connected = None ↔ is_nullish params = true)
  ∧ ∀ t, InputPanel params connected = Some t →
      Forall (fun k => control_value t k = AVal <$> getProp params k) field_names
      ∧ Forall (fun c => attr_of "disabled" c
                         = Some (AVal (VBool (negb (truthy connected)))))
               (controls t)
      ∧ by_class "error-message" t
        = if truthy connected then [] else [disconnected_notice].
Proof.
  split; [apply InputPanel_nullish|].
  intros t H. unfold InputPanel in H.
  destruct (getProp params "exchange") as [v1|] eqn:H1; [|discriminate H].
  destruct (getProp params "symbol") as [v2|] eqn:H2; [|discriminate H].
  destruct (getProp params "order_type") as [v3|] eqn:H3; [|discriminate H].
  destruct (getProp params "quantity") as [v4|] eqn:H4; [|discriminate H].
  destruct (getProp params "volatility") as [v5|] eqn:H5; [|discriminate H].
  destruct (getProp params "fee_tier") as [v6|] eqn:H6; [|discriminate H].
  simpl in H. injection H as <-.
  split_and!.
  - unfold field_names.
    constructor; [rewrite H1; reflexivity|].
    constructor; [rewrite H2; reflexivity|].
    constructor; [rewrite H3; reflexivity|].
    constructor; [rewrite H4; reflexivity|].
    constructor; [rewrite H5; reflexivity|].
    constructor; [rewrite H6; reflexivity|].
    constructor.
  - destruct (truthy connected); repeat constructor.
  - destruct (truthy connected); reflexivity.
Qed.





(** X22: the orderbook line is hidden exactly when no orderbook has
    arrived or the connection flag is falsy; otherwise the helper
    returns the [orderbook-info] span holding the symbol property and
    the two counts. The helper itself never throws, but React refuses
    the line, and the render fails, exactly when the line is shown and
    one of those three values is an object or an array holding one. *)
Theorem orderbook_info_hidden_iff (connected orderbook : JsVal) :
  (getOrderbookInfo connected orderbook = Some (Expr VNull)
   ↔ truthy orderbook && truthy connected = false)
  ∧ (truthy orderbook && truthy connected = true →
     getOrderbookInfo connected orderbook
     = Some (Elem "span" [className "orderbook-info"]
               [Expr (default VUndefined (getProp orderbook "symbol"));
                Text " - "; Expr (level_count orderbook "asks"); Text " asks, ";
                Expr (level_count orderbook "bids"); Text " bids"]))
  ∧ (is_Some (rendered (getOrderbookInfo connected orderbook))
     ↔ (truthy orderbook && truthy connected = true →
        Forall (fun v => valid_child v = true) (info_children orderbook))).
Proof.
  split_and!.
  - destruct (truthy orderbook && truthy connected) eqn:H.
    + apply andb_true_iff in H as [Hob Hc].
      rewrite (getOrderbookInfo_shown _ _ Hob Hc). split; discriminate.
    + rewrite (getOrderbookInfo_hidden _ _ H). split; reflexivity.
  - intros H. apply andb_true_iff in H as [Hob Hc].
    exact (getOrderbookInfo_shown _ _ Hob Hc).
  - apply rendered_info_iff.
Qed.

Lemma orderbook_info_hidden_iff_witness :
  truthy object_symbol_orderbook && truthy (VBool true) = true
  ∧ ¬ is_Some (rendered (getOrderbookInfo (VBool true) object_symbol_orderbook))
  ∧ is_Some (rendered (getOrderbookInfo (VBool true) sample_orderbook)).
Proof.
  split; [reflexivity|]. split.
  - intros H.
    pose proof (proj1 (proj2 (proj2 (orderbook_info_hidden_iff (VBool true)
                                       object_symbol_orderbook))) H eq_refl) as Hv.
    apply Forall_inv in Hv. discriminate Hv.
  - apply (proj2 (proj2 (proj2 (orderbook_info_hidden_iff (VBool true)
                                  sample_orderbook)))).
    intros _. repeat constructor.
Defined.

(** *** Instances of the properties that carry a condition *)

Lemma handler_throws_iff_witness :
  on (ErrorEvent VNull) live_state = None
  ∧ deliver live_state (ErrorEvent VNull) = live_state.
Proof.
  split; [reflexivity|].
  exact (proj2 (handler_throws_iff live_state (ErrorEvent VNull)) eq_refl).
Defined.

Lemma socket_never_recreated_witness :
  socket init = None ∧ snd (exec init mixed_session) = [].
Proof.
  split; [reflexivity|].
  exact (proj2 (socket_never_recreated init mixed_session) eq_refl).
Defined.

Lemma edits_compose_witness :
  params (fst (handleParamChange "fee_tier" "VIP3"
                 (fst (handleParamChange "quantity" "250" init))))
  = params (fst (handleParamChange "quantity" "250"
                   (fst (handleParamChange "fee_tier" "VIP3" init)))).
Proof.
  refine (proj2 (edits_compose "quantity" "fee_tier" "250" "VIP3" init) _).
  discriminate.
Defined.

Lemma form_reflects_state_witness :
  InputPanel default_params (VBool false) = Some default_form
  ∧ Forall (fun k => control_value default_form k = AVal <$> getProp default_params k)
           field_names.
Proof.
  split; [reflexivity|].
  exact (proj1 (proj2 (form_reflects_state default_params (VBool false))
                  default_form eq_refl)).
Defined.
